(** * Change detection by cosine similarity of satellite imagery (app.py)

    A shallow embedding of [get_nasa_similarity_for_location] and of the Flask
    handler [calculate_similarity_api], with the properties of the
    specification stated over it.

    Conventions of the embedding.
    - A Python [float] is a binary64 value (Rocq's primitive [float]);
      [<], [==], [+] and [-] are the IEEE operations.
    - A Python [str] is the [string] of its UTF-8 encoding, [bytes] a list of
      bytes.  The library functions are those of CPython 3.11 on Linux: the
      digits [strptime] reads are the decimal digits of Unicode 14.0, and
      [strftime] leaves the year to the C library, which does not pad it.
    - A value decoded from JSON is a [json]; a [dict] is a [gmap].
    - A function with effects is a computation [Py A]: it threads the trace of
      the events performed so far (outbound GET requests and log records) and
      ends in a value or in a raised exception.
    - The third-party libraries (requests, matplotlib, scikit-image,
      scikit-learn), the float conversions and formatters of the interpreter,
      and the remote map service are the fields of [Env]. *)

From Stdlib Require Import ZArith String Ascii List Floats Lia.
From Stdlib Require Uint63 DecimalString.
From stdpp Require Import base option gmap strings list fin_maps.
Set Warnings "-register-all,-inexact-float".

Local Open Scope string_scope.
Local Open Scope list_scope.
Local Open Scope Z_scope.

(** ** Python values and exceptions *)

Definition bytes := list Byte.byte.

(** What [request.get_json()] hands to the handler, and what [jsonify] takes. *)
Inductive json : Type :=
  | JNull
  | JBool (b : bool)
  | JInt (z : Z)
  | JFloat (f : float)
  | JStr (s : string)
  | JArr (l : list json)
  | JObj (m : gmap string json).

(** The exception classes the program can meet.  [RequestException] stands for
    the class and its subclasses (ConnectionError, HTTPError, ...): the only
    clause that names it, [except requests.exceptions.RequestException],
    takes them all. *)
Inductive exc_class : Type :=
  | ValueError
  | TypeError
  | KeyError
  | AttributeError
  | OverflowError
  | RequestException
  | LibraryError.

Record pyexc : Type := Exc { exc_cls : exc_class; exc_msg : string }.

Definition exc_class_eqb (a b : exc_class) : bool :=
  match a, b with
  | ValueError, ValueError | TypeError, TypeError | KeyError, KeyError
  | AttributeError, AttributeError | OverflowError, OverflowError
  | RequestException, RequestException | LibraryError, LibraryError => true
  | _, _ => false
  end.

(** The result of evaluating an expression that may raise. *)
Inductive outcome (A : Type) : Type :=
  | Val (a : A)
  | Raise (e : pyexc).
Arguments Val {A} a.
Arguments Raise {A} e.

(** ** Events and computations *)

Inductive loglevel : Type := INFO | ERROR.

Inductive event : Type :=
  | EvGet (url : string) (params : gmap string string)
  | EvLog (lvl : loglevel) (msg : string).

Definition trace := list event.

Definition Py (A : Type) : Type := trace -> outcome A * trace.

Definition ret {A} (a : A) : Py A := fun tr => (Val a, tr).

Definition bind {A B} (c : Py A) (k : A -> Py B) : Py B :=
  fun tr =>
    match c tr with
    | (Val a, tr') => k a tr'
    | (Raise e, tr') => (Raise e, tr')
    end.

Definition raise {A} (e : pyexc) : Py A := fun tr => (Raise e, tr).

(** An expression without effects, evaluated inside a computation. *)
Definition eval {A} (o : outcome A) : Py A := fun tr => (o, tr).

Definition emit (ev : event) : Py unit := fun tr => (Val tt, tr ++ [ev]).

(** [try: x = body / except <classes> as e: return handler(e)] followed by the
    rest of the function, [rest x], which the [try] does not protect. *)
Definition try_except {A B} (body : Py A) (catches : exc_class -> bool)
    (handler : pyexc -> Py B) (rest : A -> Py B) : Py B :=
  fun tr =>
    match body tr with
    | (Val a, tr') => rest a tr'
    | (Raise e, tr') =>
        if catches (exc_cls e) then handler e tr' else (Raise e, tr')
    end.

Notation "x <- c ;; k" := (bind c (fun x => k))
  (at level 100, c at next level, right associativity, only parsing).
Notation "c ;;; k" := (bind c (fun _ => k))
  (at level 100, right associativity, only parsing).

(** The GET requests of a trace, in order. *)
Definition requests_made (tr : trace) : list (string * gmap string string) :=
  omap (fun ev => match ev with EvGet u p => Some (u, p) | EvLog _ _ => None end) tr.

(** ** Calendar dates: [datetime.strptime], [timedelta], [strftime] *)

Record date : Type := Date { year : Z; month : Z; day : Z }.

Definition is_leap (y : Z) : bool :=
  (y mod 4 =? 0) && (negb (y mod 100 =? 0) || (y mod 400 =? 0)).

Definition days_in_month (y m : Z) : Z :=
  if m =? 2 then (if is_leap y then 29 else 28)
  else if (m =? 4) || (m =? 6) || (m =? 9) || (m =? 11) then 30
  else 31.

(** [datetime(y, m, d)] accepts exactly these (MINYEAR = 1, MAXYEAR = 9999). *)
Definition valid_date (d : date) : bool :=
  (1 <=? year d) && (year d <=? 9999) &&
  (1 <=? month d) && (month d <=? 12) &&
  (1 <=? day d) && (day d <=? days_in_month (year d) (month d)).

Definition prev_day (d : date) : option date :=
  if 1 <? day d then Some (Date (year d) (month d) (day d - 1))
  else if 1 <? month d then
    Some (Date (year d) (month d - 1) (days_in_month (year d) (month d - 1)))
  else if 1 <? year d then Some (Date (year d - 1) 12 31)
  else None.

(** [d - timedelta(days=n)]; [None] when the result would precede
    0001-01-01, where Python raises OverflowError. *)
Fixpoint minus_days (n : nat) (d : date) : option date :=
  match n with
  | O => Some d
  | S n' => match prev_day d with Some d' => minus_days n' d' | None => None end
  end.

Definition digit_char (z : Z) : ascii := ascii_of_nat (48 + Z.to_nat z).

Definition pad2 (z : Z) : string :=
  String (digit_char (z / 10 mod 10)) (String (digit_char (z mod 10)) EmptyString).

Definition pad4 (z : Z) : string :=
  String (digit_char (z / 1000 mod 10)) (String (digit_char (z / 100 mod 10)) (pad2 z)).

Definition pad3 (z : Z) : string :=
  String (digit_char (z / 100 mod 10)) (pad2 z).

(** The year as [%Y] writes it: in decimal, without leading zeros. *)
Definition year_text (y : Z) : string :=
  if y <? 10 then String (digit_char y) EmptyString
  else if y <? 100 then pad2 y
  else if y <? 1000 then pad3 y
  else pad4 y.

(** [d.strftime('%Y-%m-%d')]: the month and the day on two digits, the year
    on as many as it has (['998-12-29'], ['1-01-03']). *)
Definition strftime (d : date) : string :=
  year_text (year d) +:+ "-" +:+ pad2 (month d) +:+ "-" +:+ pad2 (day d).

(** *** The pattern of ['%Y-%m-%d']

    [_strptime] turns the format into the regular expression
    [(\d\d\d\d)-(1[0-2]|0[1-9]|[1-9])-(3[01]|[12]\d|0[1-9]|[1-9]| [1-9])],
    matches it at the start of the text, refuses text left over after the
    match, and builds the date, which checks the ranges.  Alternatives are
    tried from the left, with backtracking into the continuation.  A class
    such as [[1-9]] takes the ASCII digits it names; [\d] takes every decimal
    digit of Unicode, and [int] reads it with its value. *)

Definition byte_of (c : ascii) : Z := Z.of_nat (nat_of_ascii c).

Definition continuation (c : ascii) : option Z :=
  let n := byte_of c in
  if (128 <=? n) && (n <? 192) then Some (n - 128) else None.

(** A code point [cp] read from a sequence of that length is kept when the
    sequence is its shortest encoding and it is a scalar value. *)
Definition scalar (lo cp : Z) : bool :=
  (lo <=? cp) && (cp <=? 0x10FFFF) && negb ((0xD800 <=? cp) && (cp <=? 0xDFFF)).

(** The first code point of a text in UTF-8, and the text after it. *)
Definition decode_utf8 (s : string) : option (Z * string) :=
  match s with
  | EmptyString => None
  | String a r =>
      let n := byte_of a in
      if n <? 128 then Some (n, r)
      else if n <? 192 then None
      else if n <? 224 then
        match r with
        | String b r1 =>
            match continuation b with
            | Some x =>
                let cp := (n - 192) * 64 + x in
                if scalar 0x80 cp then Some (cp, r1) else None
            | None => None
            end
        | _ => None
        end
      else if n <? 240 then
        match r with
        | String b (String c r2) =>
            match continuation b, continuation c with
            | Some x, Some y =>
                let cp := ((n - 224) * 64 + x) * 64 + y in
                if scalar 0x800 cp then Some (cp, r2) else None
            | _, _ => None
            end
        | _ => None
        end
      else if n <? 248 then
        match r with
        | String b (String c (String d r3)) =>
            match continuation b, continuation c, continuation d with
            | Some x, Some y, Some z =>
                let cp := (((n - 240) * 64 + x) * 64 + y) * 64 + z in
                if scalar 0x10000 cp then Some (cp, r3) else None
            | _, _, _ => None
            end
        | _ => None
        end
      else None
  end.

(** The code points of the digits zero of Unicode 14.0 (category Nd): each is
    followed by its digits one to nine. *)
Definition decimal_zeros : list Z :=
  [
    0x30; 0x660; 0x6F0; 0x7C0; 0x966; 0x9E6; 0xA66; 0xAE6; 0xB66; 0xBE6;
    0xC66; 0xCE6; 0xD66; 0xDE6; 0xE50; 0xED0; 0xF20; 0x1040; 0x1090; 0x17E0;
    0x1810; 0x1946; 0x19D0; 0x1A80; 0x1A90; 0x1B50; 0x1BB0; 0x1C40; 0x1C50;
    0xA620; 0xA8D0; 0xA900; 0xA9D0; 0xA9F0; 0xAA50; 0xABF0; 0xFF10; 0x104A0;
    0x10D30; 0x11066; 0x110F0; 0x11136; 0x111D0; 0x112F0; 0x11450; 0x114D0;
    0x11650; 0x116C0; 0x11730; 0x118E0; 0x11950; 0x11C50; 0x11D50; 0x11DA0;
    0x16A60; 0x16AC0; 0x16B50; 0x1D7CE; 0x1D7D8; 0x1D7E2; 0x1D7EC; 0x1D7F6;
    0x1E140; 0x1E2F0; 0x1E950; 0x1FBF0 ].

Fixpoint decimal_in (zeros : list Z) (cp : Z) : option Z :=
  match zeros with
  | [] => None
  | z :: zs => if (z <=? cp) && (cp <? z + 10) then Some (cp - z) else decimal_in zs cp
  end.

(** The value of the decimal digit a text starts with, and the text after it. *)
Definition unicode_digit (s : string) : option (Z * string) :=
  match decode_utf8 s with
  | Some (cp, r) =>
      match decimal_in decimal_zeros cp with
      | Some v => Some (v, r)
      | None => None
      end
  | None => None
  end.

(** The value of an ASCII digit. *)
Definition digit_val (c : ascii) : option Z :=
  let n := Z.of_nat (nat_of_ascii c) in
  if (48 <=? n) && (n <=? 57) then Some (n - 48) else None.

Definition digit_in (lo hi : Z) (c : ascii) : option Z :=
  match digit_val c with
  | Some v => if (lo <=? v) && (v <=? hi) then Some v else None
  | None => None
  end.

Definition or_else {A} (a b : option A) : option A :=
  match a with Some _ => a | None => b end.

(** [\d] *)
Definition match_digit {A} (s : string) (k : Z -> string -> option A) : option A :=
  match unicode_digit s with
  | Some (v, r) => k v r
  | None => None
  end.

(** [\d\d\d\d] *)
Definition match_year {A} (s : string) (k : Z -> string -> option A) : option A :=
  match_digit s (fun a r1 =>
    match_digit r1 (fun b r2 =>
      match_digit r2 (fun c r3 =>
        match_digit r3 (fun d r4 => k (1000 * a + 100 * b + 10 * c + d) r4)))).

(** A class of ASCII digits followed by [\d], as in [[12]\d]. *)
Definition match_class_digit {A} (lo hi : Z) (s : string)
    (k : Z -> string -> option A) : option A :=
  match s with
  | String a r =>
      match digit_in lo hi a with
      | Some a => match_digit r (fun b r' => k (10 * a + b) r')
      | None => None
      end
  | _ => None
  end.

Definition match_two {A} (lo1 hi1 lo2 hi2 : Z) (s : string)
    (k : Z -> string -> option A) : option A :=
  match s with
  | String a (String b r) =>
      match digit_in lo1 hi1 a, digit_in lo2 hi2 b with
      | Some a, Some b => k (10 * a + b) r
      | _, _ => None
      end
  | _ => None
  end.

Definition match_one {A} (s : string) (k : Z -> string -> option A) : option A :=
  match s with
  | String a r => match digit_in 1 9 a with Some a => k a r | None => None end
  | _ => None
  end.

Definition match_space_one {A} (s : string) (k : Z -> string -> option A) : option A :=
  match s with
  | String " " r => match_one r k
  | _ => None
  end.

Definition match_dash {A} (s : string) (k : string -> option A) : option A :=
  match s with
  | String "-" r => k r
  | _ => None
  end.

Definition match_month {A} (s : string) (k : Z -> string -> option A) : option A :=
  or_else (match_two 1 1 0 2 s k) (or_else (match_two 0 0 1 9 s k) (match_one s k)).

Definition match_day {A} (s : string) (k : Z -> string -> option A) : option A :=
  or_else (match_two 3 3 0 1 s k)
    (or_else (match_class_digit 1 2 s k)
       (or_else (match_two 0 0 1 9 s k)
          (or_else (match_one s k) (match_space_one s k)))).

(** The match of the pattern at the start of [s]: the three fields and the
    text left over. *)
Definition match_ymd (s : string) : option (date * string) :=
  match_year s (fun y r1 =>
    match_dash r1 (fun r2 =>
      match_month r2 (fun m r3 =>
        match_dash r3 (fun r4 =>
          match_day r4 (fun d r5 => Some (Date y m d, r5)))))).

(** The date a text stands for, when [strptime] accepts it. *)
Definition parse_date (s : string) : option date :=
  match match_ymd s with
  | Some (d, EmptyString) => if valid_date d then Some d else None
  | _ => None
  end.

(** ** The environment: libraries, interpreter primitives, the map service *)

(** A response object of [requests]. *)
Record response : Type := Response {
  status_code : Z;
  reason : string;
  url : string;
  content : bytes
}.

(** What the network does with one GET: no response at all (a connection
    error, a timeout: [requests.get] raises a RequestException whose text is
    [msg]), or a response. *)
Inductive reply : Type :=
  | NoReply (msg : string)
  | Reply (r : response).

Class Env : Type := {
  (** arrays of pixels, and the row vector a flattened array gives *)
  image : Type;
  vector : Type;
  (** [plt.imread(io.BytesIO(buffer))] *)
  imread : bytes -> outcome image;
  (** [resize(img, (100, 100), anti_aliasing=True)] *)
  resize : image -> outcome image;
  (** [img.flatten().reshape(1, -1)] *)
  flatten : image -> vector;
  (** [float(cosine_similarity(u, v)[0][0])] *)
  cosine_similarity : vector -> vector -> outcome float;
  (** [float(n)] of an int: [None] when it is too large (OverflowError) *)
  float_of_int : Z -> option float;
  (** [float(s)] of a str: [None] when it is no number (ValueError) *)
  float_of_str : string -> option float;
  (** [repr(v)] *)
  py_repr : json -> string;
  (** [format(x, '.4f')] *)
  format_4f : float -> string;
  (** the answer of the network to a GET, given all that happened before it *)
  upstream : trace -> string -> gmap string string -> reply
}.

Section Program.
Context `{E : Env}.

(** ** Primitives of the interpreter and of [requests] *)

Definition type_name (v : json) : string :=
  match v with
  | JNull => "NoneType"
  | JBool _ => "bool"
  | JInt _ => "int"
  | JFloat _ => "float"
  | JStr _ => "str"
  | JArr _ => "list"
  | JObj _ => "dict"
  end.

(** [str(v)], which is what [f"{v}"] prints. *)
Definition py_str (v : json) : string :=
  match v with
  | JStr s => s
  | _ => py_repr v
  end.

(** [bool(v)] *)
Definition truthy (v : json) : bool :=
  match v with
  | JNull => false
  | JBool b => b
  | JInt z => negb (z =? 0)
  | JFloat f => negb (f =? 0)%float
  | JStr s => negb (String.eqb s EmptyString)
  | JArr l => match l with [] => false | _ :: _ => true end
  | JObj m => negb (bool_decide (m = ∅))
  end.

(** [float(v)] *)
Definition py_float (v : json) : outcome float :=
  match v with
  | JFloat f => Val f
  | JInt z =>
      match float_of_int z with
      | Some f => Val f
      | None => Raise (Exc OverflowError "int too large to convert to float")
      end
  | JBool b => Val (if b then 1 else 0)%float
  | JStr s =>
      match float_of_str s with
      | Some f => Val f
      | None =>
          Raise (Exc ValueError ("could not convert string to float: " +:+ py_repr v))
      end
  | _ =>
      Raise (Exc TypeError
        ("float() argument must be a string or a real number, not '"
           +:+ type_name v +:+ "'"))
  end.

(** [key in v], for a str [key] *)
Definition py_contains (key : string) (v : json) : outcome bool :=
  match v with
  | JObj m => Val (bool_decide (is_Some (m !! key)))
  | JArr l =>
      Val (existsb (fun x => match x with JStr s => String.eqb s key | _ => false end) l)
  | JStr s => Val (match String.index 0 key s with Some _ => true | None => false end)
  | _ => Raise (Exc TypeError
           ("argument of type '" +:+ type_name v +:+ "' is not iterable"))
  end.

(** [all(field in v for field in fields)]: the fields are tried in order and
    the first absent one ends the iteration. *)
Fixpoint all_in (fields : list string) (v : json) : outcome bool :=
  match fields with
  | [] => Val true
  | f :: fs =>
      match py_contains f v with
      | Val true => all_in fs v
      | Val false => Val false
      | Raise e => Raise e
      end
  end.

(** [v[key]], for a str [key] *)
Definition py_getitem (v : json) (key : string) : outcome json :=
  match v with
  | JObj m =>
      match m !! key with
      | Some x => Val x
      | None => Raise (Exc KeyError (py_repr (JStr key)))
      end
  | JArr _ => Raise (Exc TypeError "list indices must be integers or slices, not str")
  | JStr _ => Raise (Exc TypeError "string indices must be integers, not 'str'")
  | _ => Raise (Exc TypeError ("'" +:+ type_name v +:+ "' object is not subscriptable"))
  end.

(** [v.get(key, default)] *)
Definition py_get (v : json) (key : string) (default : json) : outcome json :=
  match v with
  | JObj m => Val (match m !! key with Some x => x | None => default end)
  | _ => Raise (Exc AttributeError
           ("'" +:+ type_name v +:+ "' object has no attribute 'get'"))
  end.

(** How the parser of the arguments of a built-in names what it got. *)
Definition argument_name (v : json) : string :=
  match v with
  | JNull => "None"
  | _ => type_name v
  end.

(** [datetime.strptime(v, '%Y-%m-%d')].  The text of the ValueError differs
    with the cause; the program never reads it. *)
Definition strptime (v : json) : outcome date :=
  match v with
  | JStr s =>
      match parse_date s with
      | Some d => Val d
      | None => Raise (Exc ValueError
                  ("time data " +:+ py_repr v +:+ " does not match format '%Y-%m-%d'"))
      end
  | _ => Raise (Exc TypeError
           ("strptime() argument 1 must be str, not " +:+ argument_name v))
  end.

(** [d - timedelta(days=n)] *)
Definition sub_days (d : date) (n : nat) : outcome date :=
  match minus_days n d with
  | Some d' => Val d'
  | None => Raise (Exc OverflowError "date value out of range")
  end.

(** [requests.get(url, params=params)]: one outbound request, answered or not. *)
Definition requests_get (u : string) (params : gmap string string) : Py response :=
  fun tr =>
    match upstream tr u params with
    | Reply r => (Val r, tr ++ [EvGet u params])
    | NoReply msg => (Raise (Exc RequestException msg), tr ++ [EvGet u params])
    end.

Definition dec3 (z : Z) : string :=
  String (digit_char (z / 100 mod 10)) (pad2 z).

(** [response.raise_for_status()]: an HTTPError for a status in 400..599. *)
Definition raise_for_status (r : response) : outcome unit :=
  if (400 <=? status_code r) && (status_code r <? 500) then
    Raise (Exc RequestException
      (dec3 (status_code r) +:+ " Client Error: " +:+ reason r +:+ " for url: " +:+ url r))
  else if (500 <=? status_code r) && (status_code r <? 600) then
    Raise (Exc RequestException
      (dec3 (status_code r) +:+ " Server Error: " +:+ reason r +:+ " for url: " +:+ url r))
  else Val tt.

Definition logging_error (msg : string) : Py unit := emit (EvLog ERROR msg).
Definition logging_info (msg : string) : Py unit := emit (EvLog INFO msg).

(** ** The core: [get_nasa_similarity_for_location] *)

Definition nasa_base_url : string :=
  "https://gibs.earthdata.nasa.gov/wms/epsg4326/best/wms.cgi".

Definition delta : float := 0.5%float.

Definition bbox_str (lat lng : float) : string :=
  py_str (JFloat (lng - delta)%float) +:+ "," +:+
  py_str (JFloat (lat - delta)%float) +:+ "," +:+
  py_str (JFloat (lng + delta)%float) +:+ "," +:+
  py_str (JFloat (lat + delta)%float).

Definition base_params (lat lng : float) : gmap string string :=
  list_to_map
    [ ("SERVICE", "WMS");
      ("REQUEST", "GetMap");
      ("VERSION", "1.3.0");
      ("LAYERS", "MODIS_Terra_CorrectedReflectance_TrueColor");
      ("FORMAT", "image/png");
      ("CRS", "EPSG:4326");
      ("BBOX", bbox_str lat lng);
      ("WIDTH", "1024");
      ("HEIGHT", "1024") ].

(** [params = base_params.copy(); params['TIME'] = t;
     response = requests.get(nasa_base_url, params=params);
     response.raise_for_status(); buffer = response.content] *)
Definition fetch_image (lat lng : float) (t : string) : Py bytes :=
  let params := <["TIME" := t]> (base_params lat lng) in
  response <- requests_get nasa_base_url params ;;
  eval (raise_for_status response) ;;;
  ret (content response).

Definition is_RequestException (c : exc_class) : bool := exc_class_eqb c RequestException.
Definition is_ValueError (c : exc_class) : bool := exc_class_eqb c ValueError.

Definition get_nasa_similarity_for_location
    (lat lng : float) (date_str : json) (threshold : float)
    : Py (option float * option string) :=
  try_except (eval (strptime date_str)) is_ValueError
    (fun _ =>
       logging_error ("Invalid date format for: " +:+ py_str date_str) ;;;
       ret (None, Some "Invalid date format. Please use YYYY-MM-DD."))
    (fun date1_obj =>
       date2_obj_week <- eval (sub_days date1_obj 7) ;;
       let date2_str_week := strftime date2_obj_week in
       try_except
         (image1_buffer <- fetch_image lat lng (py_str date_str) ;;
          image2_buffer_week <- fetch_image lat lng date2_str_week ;;
          ret (image1_buffer, image2_buffer_week))
         is_RequestException
         (fun e =>
            logging_error
              ("Failed to fetch initial images from NASA GIBS: " +:+ exc_msg e) ;;;
            ret (None, Some ("Could not retrieve images from NASA. Error: " +:+ exc_msg e)))
         (fun buffers =>
            img1 <- eval (imread (fst buffers)) ;;
            img2_week <- eval (imread (snd buffers)) ;;
            img1_resized <- eval (resize img1) ;;
            img2_resized_week <- eval (resize img2_week) ;;
            let vec1 := flatten img1_resized in
            let vec2_week := flatten img2_resized_week in
            score <- eval (cosine_similarity vec1 vec2_week) ;;
            if (score <? threshold)%float then
              logging_info
                ("Week 1 score (" +:+ format_4f score +:+ ") is below threshold ("
                   +:+ py_str (JFloat threshold) +:+ "). Checking 2 weeks prior.") ;;;
              date2_obj_two_weeks <- eval (sub_days date1_obj 14) ;;
              let date2_str_two_weeks := strftime date2_obj_two_weeks in
              try_except (fetch_image lat lng date2_str_two_weeks) is_RequestException
                (fun e =>
                   logging_error ("Failed to fetch 2-week fallback image: " +:+ exc_msg e) ;;;
                   ret (Some score, None))
                (fun image2_buffer_two_weeks =>
                   img2_two_weeks <- eval (imread image2_buffer_two_weeks) ;;
                   img2_resized_two_weeks <- eval (resize img2_two_weeks) ;;
                   let vec2_two_weeks := flatten img2_resized_two_weeks in
                   score <- eval (cosine_similarity vec1 vec2_two_weeks) ;;
                   ret (Some score, None))
            else ret (Some score, None))).

(** The call that leaves [threshold] to its default (line 18). *)
Definition get_nasa_similarity_for_location_default
    (lat lng : float) (date_str : json) : Py (option float * option string) :=
  get_nasa_similarity_for_location lat lng date_str 0.75%float.

(** ** The endpoint: [calculate_similarity_api] *)

(** What a view function returns: the JSON body and the status code. *)
Definition http_response : Type := json * Z.

Definition jsonify_error (msg : string) : json := JObj {[ "error" := JStr msg ]}.

Definition required_fields : list string := ["lat"; "lng"; "date_str"].

(** [if error_message:] *)
Definition truthy_message (m : option string) : bool :=
  match m with
  | Some s => negb (String.eqb s EmptyString)
  | None => false
  end.

Definition status_of (score threshold : float) : string :=
  if (score =? 1)%float then "IDENTICAL"
  else if (score <? threshold)%float then "SIGNIFICANT_CHANGE_DETECTED"
  else "NO_SIGNIFICANT_CHANGE".

Definition message_of (score threshold : float) : string :=
  if (score =? 1)%float then "No change detected; the areas appear identical."
  else if (score <? threshold)%float then
    "Potential deforestation, dumping, or significant land use change detected. The similarity score ("
      +:+ format_4f score +:+ ") is below the threshold ("
      +:+ py_str (JFloat threshold) +:+ ")."
  else
    "No significant change detected. The similarity score ("
      +:+ format_4f score +:+ ") is above the threshold ("
      +:+ py_str (JFloat threshold) +:+ ").".

(** Lines 129-160: what the handler answers to the pair the core returned. *)
Definition interpret (threshold : float) (r : option float * option string)
    : http_response :=
  let (score, error_message) := r in
  if truthy_message error_message then
    (jsonify_error (match error_message with Some s => s | None => EmptyString end), 502)
  else
    match score with
    | Some score =>
        (JObj (list_to_map
           [ ("status", JStr (status_of score threshold));
             ("message", JStr (message_of score threshold));
             ("similarity_score", JFloat score);
             ("threshold_used", JFloat threshold) ]), 200)
    | None => (jsonify_error "An unknown error occurred during processing.", 500)
    end.

(** Lines 118-122: the four arguments read from the body. *)
Definition read_arguments (data : json) : outcome (float * float * json * float) :=
  match py_getitem data "lat" with
  | Raise e => Raise e
  | Val lat_v =>
  match py_float lat_v with
  | Raise e => Raise e
  | Val lat =>
  match py_getitem data "lng" with
  | Raise e => Raise e
  | Val lng_v =>
  match py_float lng_v with
  | Raise e => Raise e
  | Val lng =>
  match py_getitem data "date_str" with
  | Raise e => Raise e
  | Val date_str =>
  match py_get data "threshold" (JFloat 0.75%float) with
  | Raise e => Raise e
  | Val threshold_v =>
  match py_float threshold_v with
  | Raise e => Raise e
  | Val threshold => Val (lat, lng, date_str, threshold)
  end end end end end end end.

Definition is_ValueError_or_TypeError (c : exc_class) : bool :=
  exc_class_eqb c ValueError || exc_class_eqb c TypeError.

(** [data] is what [request.get_json()] returned. *)
Definition calculate_similarity_api (data : json) : Py http_response :=
  if negb (truthy data) then
    ret (jsonify_error "Invalid request. Must be JSON.", 400)
  else
    present <- eval (all_in required_fields data) ;;
    if negb present then
      ret (jsonify_error
             "Missing one or more required fields: ['lat', 'lng', 'date_str']", 400)
    else
      try_except (eval (read_arguments data)) is_ValueError_or_TypeError
        (fun e =>
           ret (jsonify_error ("Invalid data type for parameters. " +:+ exc_msg e), 400))
        (fun args =>
           let '(lat, lng, date_str, threshold) := args in
           (r <- get_nasa_similarity_for_location lat lng date_str threshold ;;
            ret (interpret threshold r))).

End Program.

(** * A test double of the environment

    The core run without a network: the map service is a table from the TIME
    of a request to its reply, an image is the list of its byte values, and
    the similarity is computed in binary64 from the definition. *)

Module Double.

Definition pixel (b : Byte.byte) : Z := Z.of_N (Byte.to_N b).

Definition to_float (z : Z) : float := PrimFloat.of_uint63 (Uint63.of_Z z).

Fixpoint dot (u v : list Z) : float :=
  match u, v with
  | x :: u', y :: v' => (to_float x * to_float y + dot u' v')%float
  | _, _ => 0%float
  end.

(** The norm, a null norm replaced by 1 as scikit-learn does. *)
Definition norm (u : list Z) : float :=
  let n := PrimFloat.sqrt (dot u u) in
  if (n =? 0)%float then 1%float else n.

Definition cosine (u v : list Z) : float := (dot u v / (norm u * norm v))%float.

Definition show_pos (p : positive) : string := DecimalString.NilZero.string_of_uint (Pos.to_uint p).

Definition show_Z (z : Z) : string := DecimalString.NilZero.string_of_int (Z.to_int z).

(** A float as sign, mantissa and exponent: enough to tell floats apart. *)
Definition show_float (f : float) : string :=
  match Prim2SF f with
  | S754_zero s => if s then "-0.0" else "0.0"
  | S754_infinity s => if s then "-inf" else "inf"
  | S754_nan => "nan"
  | S754_finite s m e => (if s then "-" else EmptyString) +:+ show_pos m +:+ "p" +:+ show_Z e
  end.

Definition show (v : json) : string :=
  match v with
  | JNull => "None"
  | JBool b => if b then "True" else "False"
  | JInt z => show_Z z
  | JFloat f => show_float f
  | JStr s => "'" +:+ s +:+ "'"
  | JArr _ => "[...]"
  | JObj _ => "{...}"
  end.

(** Ints of at most 63 bits convert; the double refuses the others. *)
Definition int_to_float (z : Z) : option float :=
  if (0 <=? z) && (z <? 2 ^ 63) then Some (to_float z)
  else if (- 2 ^ 63 <? z) && (z <? 0) then Some (- to_float (- z))%float
  else None.

#[local] Instance env (net : string -> reply) : Env := {|
  image := list Z;
  vector := list Z;
  imread buf := Val (map pixel buf);
  resize img := Val img;
  flatten img := img;
  cosine_similarity u v := Val (cosine u v);
  float_of_int := int_to_float;
  float_of_str _ := None;
  py_repr := show;
  format_4f := show_float;
  upstream _ _ params :=
    match params !! "TIME" with
    | Some t => net t
    | None => NoReply "no TIME"
    end
|}.

Definition ok (buf : bytes) : reply :=
  Reply (Response 200 "OK" "https://gibs.earthdata.nasa.gov/" buf).

Definition target_image : bytes := [Byte.x02; Byte.x01; Byte.x02].
Definition week_image_far : bytes := [Byte.x01; Byte.x00; Byte.x00].
Definition week_image_near : bytes := [Byte.x02; Byte.x02; Byte.x01].
Definition two_weeks_image : bytes := [Byte.x00; Byte.x01; Byte.x00].

(** The week-prior image differs much; two weeks before, no answer. *)
Definition net_fallback_down (t : string) : reply :=
  if String.eqb t "2023-08-15" then ok target_image
  else if String.eqb t "2023-08-08" then ok week_image_far
  else NoReply "Connection timed out".

(** The week-prior image differs much; two weeks before, it differs more. *)
Definition net_fallback_up (t : string) : reply :=
  if String.eqb t "2023-08-15" then ok target_image
  else if String.eqb t "2023-08-08" then ok week_image_far
  else if String.eqb t "2023-08-01" then ok two_weeks_image
  else NoReply "Connection timed out".

(** The week-prior image is close to the target. *)
Definition net_steady (t : string) : reply :=
  if String.eqb t "2023-08-15" then ok target_image
  else if String.eqb t "2023-08-08" then ok week_image_near
  else NoReply "Connection timed out".

(** The service answers 503 to everything but the target day. *)
Definition net_week_unavailable (t : string) : reply :=
  if String.eqb t "2023-08-15" then ok target_image
  else Reply (Response 503 "Service Unavailable" "https://gibs.earthdata.nasa.gov/" []).

Definition day0 : date := Date 2023 8 15.
Definition day7 : date := Date 2023 8 8.
Definition day14 : date := Date 2023 8 1.
Definition vec0 : list Z := map pixel target_image.

Definition lat0 : float := (-3.4653)%float.
Definition lng0 : float := (-62.2159)%float.

Definition body (date_str : string) : json :=
  JObj (list_to_map
    [ ("lat", JFloat lat0); ("lng", JFloat lng0); ("date_str", JStr date_str) ]).

Definition body_with_threshold (date_str : string) (threshold : float) : json :=
  JObj (list_to_map
    [ ("lat", JFloat lat0); ("lng", JFloat lng0); ("date_str", JStr date_str);
      ("threshold", JFloat threshold) ]).

End Double.

(** * Vocabulary of the specification

    What the claims speak of, said over the environment: a fetch that succeeds
    or fails, a well-formed body, the outcome of the initial comparison. *)

Section Vocabulary.
Context `{E : Env}.

(** The parameters of the request for the image of day [t], and the event of
    sending it. *)
Definition params_for (lat lng : float) (t : string) : gmap string string :=
  <["TIME" := t]> (base_params lat lng).

Definition request_for (lat lng : float) (t : string) : event :=
  EvGet nasa_base_url (params_for lat lng t).

(** After the events of [tr], the request for day [t] is answered with a
    status outside 400..599 and the body [buf]. *)
Definition fetch_succeeds (tr : trace) (lat lng : float) (t : string) (buf : bytes) : Prop :=
  exists r,
    upstream tr nasa_base_url (params_for lat lng t) = Reply r /\
    (status_code r < 400 \/ 600 <= status_code r) /\
    content r = buf.

(** After the events of [tr], the request for day [t] gets no response (a
    network error with text [msg]) or a response with a status in 400..599
    (whose HTTPError has text [msg]). *)
Definition fetch_fails (tr : trace) (lat lng : float) (t : string) (msg : string) : Prop :=
  upstream tr nasa_base_url (params_for lat lng t) = NoReply msg \/
  exists r,
    upstream tr nasa_base_url (params_for lat lng t) = Reply r /\
    400 <= status_code r < 600 /\
    raise_for_status r = Raise (Exc RequestException msg).

(** The body is an object whose [lat] and [lng] convert to the floats [lat]
    and [lng], whose [date_str] is [date_str], and whose [threshold], or 0.75
    in its absence, converts to [threshold]. *)
Definition well_formed_body (data : json) (lat lng : float) (date_str : json)
    (threshold : float) : Prop :=
  exists (m : gmap string json) (lat_v lng_v : json),
    data = JObj m /\
    m !! "lat" = Some lat_v /\ py_float lat_v = Val lat /\
    m !! "lng" = Some lng_v /\ py_float lng_v = Val lng /\
    m !! "date_str" = Some date_str /\
    py_float (match m !! "threshold" with Some x => x | None => JFloat 0.75%float end)
      = Val threshold.

(** The bytes [buf] decode, resize and flatten to the vector [v]. *)
Definition decoded (buf : bytes) (v : vector) : Prop :=
  exists img res, imread buf = Val img /\ resize img = Val res /\ v = flatten res.

(** Started after [tr] on the text [s] of day [d]: both initial fetches
    succeed, both images decode, [vec1] is the vector of the target day, and
    the similarity with the image of [d7], a week before, is [score]. *)
Definition initial_comparison (lat lng : float) (s : string) (tr : trace)
    (d d7 : date) (vec1 : vector) (score : float) : Prop :=
  parse_date s = Some d /\
  minus_days 7 d = Some d7 /\
  exists buf1 buf2 vec2,
    fetch_succeeds tr lat lng s buf1 /\
    fetch_succeeds (tr ++ [request_for lat lng s]) lat lng (strftime d7) buf2 /\
    decoded buf1 vec1 /\
    decoded buf2 vec2 /\
    cosine_similarity vec1 vec2 = Val score.

(** The two requests of the initial phase. *)
Definition week_events (lat lng : float) (s : string) (d7 : date) : list event :=
  [request_for lat lng s; request_for lat lng (strftime d7)].

(** The record logged when the fallback starts. *)
Definition fallback_log (score threshold : float) : event :=
  EvLog INFO
    ("Week 1 score (" +:+ format_4f score +:+ ") is below threshold ("
       +:+ py_str (JFloat threshold) +:+ "). Checking 2 weeks prior.").

(** One of the two initial fetches fails with text [msg]: the first one, and
    then [evs] is that single request; or the second one after the first
    succeeded, and then [evs] is the two requests. *)
Definition initial_fetch_failure (lat lng : float) (s : string) (d7 : date)
    (tr : trace) (msg : string) (evs : list event) : Prop :=
  (fetch_fails tr lat lng s msg /\ evs = [request_for lat lng s]) \/
  (exists buf1,
     fetch_succeeds tr lat lng s buf1 /\
     fetch_fails (tr ++ [request_for lat lng s]) lat lng (strftime d7) msg /\
     evs = week_events lat lng s d7).

(** A pair with exactly one component, the message not empty. *)
Definition exactly_one (r : option float * option string) : Prop :=
  match r with
  | (Some _, None) => True
  | (None, Some msg) => msg <> EmptyString
  | _ => False
  end.

(** The events the core can perform for a coordinate: log records, and GET
    requests to the map service that carry the base parameters and a TIME. *)
Definition core_event (lat lng : float) (ev : event) : Prop :=
  match ev with
  | EvLog _ _ => True
  | EvGet u p => u = nasa_base_url /\ exists t, p = params_for lat lng t
  end.

End Vocabulary.

(** * Properties *)

(** ** Binary64 comparisons *)

Lemma SFcompare_antisym (a b : spec_float) :
  SFcompare b a = option_map CompOpp (SFcompare a b).
Proof.
  destruct a as [[]|[]| |[] m1 e1], b as [[]|[]| |[] m2 e2]; simpl; try reflexivity.
  all: rewrite (Z.compare_antisym e1 e2); destruct (e1 ?= e2); simpl; try reflexivity.
  all: rewrite (Pos.compare_cont_antisym m1 m2 Eq); simpl; try reflexivity.
  all: destruct (Pos.compare_cont Eq m1 m2); reflexivity.
Qed.

(** [threshold <= score] excludes [score < threshold] (it also excludes NaN
    on either side). *)
Lemma float_leb_not_ltb (x y : float) :
  (y <=? x)%float = true -> (x <? y)%float = false.
Proof.
  rewrite FloatAxioms.leb_spec, FloatAxioms.ltb_spec. unfold SFleb, SFltb.
  rewrite (SFcompare_antisym (Prim2SF y) (Prim2SF x)).
  destruct (SFcompare (Prim2SF y) (Prim2SF x)) as [[]|]; simpl; congruence.
Qed.

(** ** Dates *)

Lemma prev_day_valid (d d' : date) :
  valid_date d = true -> prev_day d = Some d' -> valid_date d' = true.
Proof.
  destruct d as [y m dd]. unfold valid_date, prev_day, days_in_month; simpl.
  intros Hv Hp.
  repeat (apply andb_prop in Hv; destruct Hv as [Hv ?]).
  destruct (1 <? dd) eqn:Hd.
  { injection Hp as <-; simpl. repeat (apply andb_true_intro; split); lia. }
  destruct (1 <? m) eqn:Hm.
  { injection Hp as <-; simpl.
    repeat (apply andb_true_intro; split); try lia.
    repeat match goal with |- context [if ?b then _ else _] => destruct b end; lia. }
  destruct (1 <? y) eqn:Hy; [|discriminate].
  injection Hp as <-; simpl.
  repeat (apply andb_true_intro; split); lia.
Qed.

Lemma minus_days_valid (n : nat) (d d' : date) :
  valid_date d = true -> minus_days n d = Some d' -> valid_date d' = true.
Proof.
  revert d. induction n as [|n IH]; simpl; intros d Hv H.
  - injection H as <-. exact Hv.
  - destruct (prev_day d) as [p|] eqn:Hp; [|discriminate].
    apply (IH p); [eapply prev_day_valid; eassumption | exact H].
Qed.

(** Going back [a + b] days is going back [a] days and then [b] more. *)
Lemma minus_days_add (a b : nat) (d : date) :
  minus_days (a + b) d =
  match minus_days a d with Some d' => minus_days b d' | None => None end.
Proof.
  revert d. induction a as [|a IH]; simpl; intros d; [reflexivity|].
  destruct (prev_day d); [apply IH | reflexivity].
Qed.

Lemma parse_date_valid (s : string) (d : date) :
  parse_date s = Some d -> valid_date d = true.
Proof.
  unfold parse_date. destruct (match_ymd s) as [[d0 [|c r]]|]; try discriminate.
  destruct (valid_date d0) eqn:Hv; [|discriminate].
  intros [= <-]. exact Hv.
Qed.

Section Reasoning.
Context `{E : Env}.

#[local] Arguments minus_days : simpl never.
#[local] Arguments strftime : simpl never.

(** ** Running computations *)

Lemma bind_val {A B} (c : Py A) (k : A -> Py B) tr a tr' :
  c tr = (Val a, tr') -> bind c k tr = k a tr'.
Proof. unfold bind. intros ->. reflexivity. Qed.

Lemma bind_raise {A B} (c : Py A) (k : A -> Py B) tr e tr' :
  c tr = (Raise e, tr') -> bind c k tr = (Raise e, tr').
Proof. unfold bind. intros ->. reflexivity. Qed.

Lemma try_except_val {A B} (body : Py A) catches (handler : pyexc -> Py B) rest tr a tr' :
  body tr = (Val a, tr') -> try_except body catches handler rest tr = rest a tr'.
Proof. unfold try_except. intros ->. reflexivity. Qed.

Lemma try_except_caught {A B} (body : Py A) catches (handler : pyexc -> Py B) rest tr e tr' :
  body tr = (Raise e, tr') -> catches (exc_cls e) = true ->
  try_except body catches handler rest tr = handler e tr'.
Proof. unfold try_except. intros -> ->. reflexivity. Qed.

Lemma try_except_escapes {A B} (body : Py A) catches (handler : pyexc -> Py B) rest tr e tr' :
  body tr = (Raise e, tr') -> catches (exc_cls e) = false ->
  try_except body catches handler rest tr = (Raise e, tr').
Proof. unfold try_except. intros -> ->. reflexivity. Qed.

(** ** Fetches, as the environment decides them *)

Lemma raise_for_status_ok (r : response) :
  status_code r < 400 \/ 600 <= status_code r -> raise_for_status r = Val tt.
Proof.
  intros H. unfold raise_for_status.
  destruct (400 <=? status_code r) eqn:H4, (status_code r <? 500) eqn:H5,
    (500 <=? status_code r) eqn:H6, (status_code r <? 600) eqn:H7; simpl; try reflexivity; lia.
Qed.

Lemma raise_for_status_error (r : response) :
  400 <= status_code r < 600 ->
  exists msg, raise_for_status r = Raise (Exc RequestException msg).
Proof.
  intros H. unfold raise_for_status.
  destruct (400 <=? status_code r) eqn:H4, (status_code r <? 500) eqn:H5,
    (500 <=? status_code r) eqn:H6, (status_code r <? 600) eqn:H7; simpl; eauto; lia.
Qed.

Lemma fetch_image_succeeds tr lat lng t buf :
  fetch_succeeds tr lat lng t buf ->
  fetch_image lat lng t tr = (Val buf, tr ++ [request_for lat lng t]).
Proof.
  intros (r & Hr & Hs & <-).
  unfold fetch_image, bind, requests_get, eval, ret. fold (params_for lat lng t).
  rewrite Hr, (raise_for_status_ok r Hs). reflexivity.
Qed.

Lemma fetch_image_fails tr lat lng t msg :
  fetch_fails tr lat lng t msg ->
  fetch_image lat lng t tr = (Raise (Exc RequestException msg), tr ++ [request_for lat lng t]).
Proof.
  unfold fetch_image, bind, requests_get, eval, ret. fold (params_for lat lng t).
  intros [Hn | (r & Hr & _ & Hs)].
  - rewrite Hn. reflexivity.
  - rewrite Hr, Hs. reflexivity.
Qed.

(** Every fetch ends one of the two ways, and sends exactly one request. *)
Lemma fetch_image_cases tr lat lng t :
  (exists buf, fetch_succeeds tr lat lng t buf) \/ (exists msg, fetch_fails tr lat lng t msg).
Proof.
  unfold fetch_succeeds, fetch_fails.
  destruct (upstream tr nasa_base_url (params_for lat lng t)) as [msg | r] eqn:Hu.
  - right. exists msg. left. reflexivity.
  - destruct (Z_lt_dec (status_code r) 400) as [Hlo | Hlo].
    + left. exists (content r), r. auto.
    + destruct (Z_le_dec 600 (status_code r)) as [Hhi | Hhi].
      * left. exists (content r), r. auto.
      * right. destruct (raise_for_status_error r) as [msg Hm]; [lia|].
        exists msg. right. exists r. repeat split; auto; lia.
Qed.

(** ** Well-formed request bodies *)

(** On a well-formed body the handler calls the core with the four arguments
    and answers with [interpret]. *)
Lemma api_well_formed data lat lng date_str threshold tr :
  well_formed_body data lat lng date_str threshold ->
  calculate_similarity_api data tr =
  bind (get_nasa_similarity_for_location lat lng date_str threshold)
       (fun r => ret (interpret threshold r)) tr.
Proof.
  intros (m & lat_v & lng_v & -> & Hlat & Hflat & Hlng & Hflng & Hds & Hth).
  unfold calculate_similarity_api.
  assert (Hne : truthy (JObj m) = true).
  { simpl. rewrite bool_decide_eq_false_2; [reflexivity|].
    intros ->. rewrite lookup_empty in Hlat. discriminate. }
  rewrite Hne. cbn [negb]; cbv iota.
  assert (Hall : all_in required_fields (JObj m) = Val true).
  { simpl. rewrite Hlat, Hlng, Hds.
    rewrite !bool_decide_eq_true_2 by eauto. reflexivity. }
  unfold bind at 1, eval at 1. rewrite Hall. cbn [negb]; cbv iota.
  assert (Hargs : read_arguments (JObj m) = Val (lat, lng, date_str, threshold)).
  { unfold read_arguments. simpl py_getitem. rewrite Hlat, Hflat, Hlng, Hflng, Hds.
    simpl py_get. cbv iota. rewrite Hth. reflexivity. }
  unfold try_except, eval. rewrite Hargs. reflexivity.
Qed.

(** ** The three ways the core returns a score *)

Ltac unfold_core :=
  unfold get_nasa_similarity_for_location, try_except, bind, eval, ret,
    logging_info, logging_error, emit;
  simpl strptime; simpl py_str.

Ltac initial_phase Hi :=
  let Hp := fresh "Hp" in
  let H7 := fresh "H7" in
  let Hf1 := fresh "Hf1" in
  let Hf2 := fresh "Hf2" in
  let Hc := fresh "Hc" in
  destruct Hi as (Hp & H7 & ? & ? & ? & Hf1 & Hf2 &
                  (? & ? & ?Hr1 & ?Hz1 & ->) & (? & ? & ?Hr2 & ?Hz2 & ->) & Hc);
  unfold_core; rewrite Hp; unfold sub_days at 1; rewrite H7;
  rewrite (fetch_image_succeeds _ _ _ _ _ Hf1);
  rewrite (fetch_image_succeeds _ _ _ _ _ Hf2);
  simpl fst; simpl snd; rewrite Hr1, Hr2, Hz1, Hz2, Hc;
  rewrite <- !app_assoc; simpl app.

Lemma compare_no_fallback lat lng s threshold tr d d7 vec1 score :
  initial_comparison lat lng s tr d d7 vec1 score ->
  (score <? threshold)%float = false ->
  get_nasa_similarity_for_location lat lng (JStr s) threshold tr =
  (Val (Some score, None), tr ++ week_events lat lng s d7).
Proof.
  intros Hi Hlt. initial_phase Hi. rewrite Hlt. reflexivity.
Qed.

Lemma compare_fallback_failed lat lng s threshold tr d d7 d14 vec1 score msg :
  initial_comparison lat lng s tr d d7 vec1 score ->
  (score <? threshold)%float = true ->
  minus_days 14 d = Some d14 ->
  fetch_fails (tr ++ week_events lat lng s d7 ++ [fallback_log score threshold])
    lat lng (strftime d14) msg ->
  get_nasa_similarity_for_location lat lng (JStr s) threshold tr =
  (Val (Some score, None),
   tr ++ week_events lat lng s d7 ++
     [fallback_log score threshold;
      request_for lat lng (strftime d14);
      EvLog ERROR ("Failed to fetch 2-week fallback image: " +:+ msg)]).
Proof.
  intros Hi Hlt H14 Hf3. initial_phase Hi. rewrite Hlt.
  unfold sub_days. rewrite H14.
  rewrite <- !app_assoc; simpl app.
  unfold week_events, fallback_log in Hf3. simpl app in Hf3. simpl py_str in Hf3.
  rewrite (fetch_image_fails _ _ _ _ _ Hf3). simpl.
  rewrite <- !app_assoc. reflexivity.
Qed.

Lemma compare_fallback_succeeded lat lng s threshold tr d d7 d14 vec1 score buf3 vec3 score2 :
  initial_comparison lat lng s tr d d7 vec1 score ->
  (score <? threshold)%float = true ->
  minus_days 14 d = Some d14 ->
  fetch_succeeds (tr ++ week_events lat lng s d7 ++ [fallback_log score threshold])
    lat lng (strftime d14) buf3 ->
  decoded buf3 vec3 ->
  cosine_similarity vec1 vec3 = Val score2 ->
  get_nasa_similarity_for_location lat lng (JStr s) threshold tr =
  (Val (Some score2, None),
   tr ++ week_events lat lng s d7 ++
     [fallback_log score threshold; request_for lat lng (strftime d14)]).
Proof.
  intros Hi Hlt H14 Hf3 (img3 & res3 & Hr3 & Hz3 & ->) Hc3. initial_phase Hi. rewrite Hlt.
  unfold sub_days. rewrite H14.
  rewrite <- !app_assoc; simpl app.
  unfold week_events, fallback_log in Hf3. simpl app in Hf3. simpl py_str in Hf3.
  rewrite (fetch_image_succeeds _ _ _ _ _ Hf3). rewrite Hr3, Hz3, Hc3.
  rewrite <- !app_assoc. reflexivity.
Qed.

(** ** The two ways the core returns an error *)

Lemma compare_invalid_date lat lng s threshold tr :
  parse_date s = None ->
  get_nasa_similarity_for_location lat lng (JStr s) threshold tr =
  (Val (None, Some "Invalid date format. Please use YYYY-MM-DD."),
   tr ++ [EvLog ERROR ("Invalid date format for: " +:+ s)]).
Proof. intros Hp. unfold_core. rewrite Hp. reflexivity. Qed.


(** ** What holds of every invocation *)

Lemma fetch_image_trace tr lat lng t :
  exists o, fetch_image lat lng t tr = (o, tr ++ [request_for lat lng t]).
Proof.
  destruct (fetch_image_cases tr lat lng t) as [[buf H] | [msg H]].
  - rewrite (fetch_image_succeeds _ _ _ _ _ H). eauto.
  - rewrite (fetch_image_fails _ _ _ _ _ H). eauto.
Qed.

Lemma fetch_image_raises tr lat lng t e tr' :
  fetch_image lat lng t tr = (Raise e, tr') -> exc_cls e = RequestException.
Proof.
  destruct (fetch_image_cases tr lat lng t) as [[buf H] | [msg H]].
  - rewrite (fetch_image_succeeds _ _ _ _ _ H). discriminate.
  - rewrite (fetch_image_fails _ _ _ _ _ H). intros [= <- _]. reflexivity.
Qed.

Lemma core_request lat lng t : core_event lat lng (request_for lat lng t).
Proof. split; [reflexivity | eauto]. Qed.

Local Hint Resolve core_request : core.

Ltac close_run :=
  eexists; split;
  [ simpl snd; rewrite <- ?app_assoc; simpl app;
    first [ reflexivity | symmetry; apply app_nil_r ]
  | split;
    [ repeat match goal with
        | |- Forall _ (_ :: _) =>
            constructor; [ first [ apply core_request | exact I ] | ]
        | |- Forall _ [] => constructor
        end
    | split; [ simpl; lia | simpl; auto; try discriminate ] ] ].

(** Every invocation only extends the trace, with at most three requests, all
    of them to the map service for this coordinate; and what it returns, when
    it returns, is a pair with exactly one component. *)
Lemma compare_sound lat lng date_str threshold tr :
  exists evs,
    snd (get_nasa_similarity_for_location lat lng date_str threshold tr) = tr ++ evs /\
    Forall (core_event lat lng) evs /\
    (length (requests_made evs) <= 3)%nat /\
    match fst (get_nasa_similarity_for_location lat lng date_str threshold tr) with
    | Val r => exactly_one r
    | Raise _ => True
    end.
Proof.
  unfold_core.
  destruct date_str as [| b | z | f | s | l | m]; simpl; try close_run.
  destruct (parse_date s) as [d|]; simpl; [| close_run].
  unfold sub_days. destruct (minus_days 7 d) as [d7|]; [| close_run].
  destruct (fetch_image_trace tr lat lng s) as [o1 H1]. rewrite H1.
  destruct o1 as [buf1 | e1].
  2:{ rewrite (fetch_image_raises _ _ _ _ _ _ H1). simpl. close_run. }
  destruct (fetch_image_trace (tr ++ [request_for lat lng s]) lat lng (strftime d7))
    as [o2 H2]. rewrite H2.
  destruct o2 as [buf2 | e2].
  2:{ rewrite (fetch_image_raises _ _ _ _ _ _ H2). simpl. close_run. }
  simpl fst; simpl snd.
  destruct (imread buf1) as [img1|]; [| close_run].
  destruct (imread buf2) as [img2|]; [| close_run].
  destruct (resize img1) as [res1|]; [| close_run].
  destruct (resize img2) as [res2|]; [| close_run].
  destruct (cosine_similarity (flatten res1) (flatten res2)) as [score|]; [| close_run].
  destruct (score <? threshold)%float; [| close_run].
  destruct (minus_days 14 d) as [d14|]; [| close_run].
  match goal with |- context [fetch_image lat lng (strftime d14) ?t] =>
    destruct (fetch_image_trace t lat lng (strftime d14)) as [o3 H3]; rewrite H3 end.
  destruct o3 as [buf3 | e3].
  2:{ rewrite (fetch_image_raises _ _ _ _ _ _ H3). simpl. close_run. }
  destruct (imread buf3) as [img3|]; [| close_run].
  destruct (resize img3) as [res3|]; [| close_run].
  destruct (cosine_similarity (flatten res1) (flatten res3)) as [score2|]; close_run.
Qed.

(** ** Parameters of the requests *)

Lemma params_for_time lat lng t : params_for lat lng t !! "TIME" = Some t.
Proof. apply lookup_insert_eq. Qed.

Lemma params_for_other lat lng t k :
  k <> "TIME" -> params_for lat lng t !! k = base_params lat lng !! k.
Proof. intros Hk. apply lookup_insert_ne. congruence. Qed.

Lemma params_for_fixed lat lng t :
  params_for lat lng t !! "SERVICE" = Some "WMS" /\
  params_for lat lng t !! "REQUEST" = Some "GetMap" /\
  params_for lat lng t !! "VERSION" = Some "1.3.0" /\
  params_for lat lng t !! "LAYERS" = Some "MODIS_Terra_CorrectedReflectance_TrueColor" /\
  params_for lat lng t !! "FORMAT" = Some "image/png" /\
  params_for lat lng t !! "CRS" = Some "EPSG:4326" /\
  params_for lat lng t !! "BBOX" = Some (bbox_str lat lng) /\
  params_for lat lng t !! "WIDTH" = Some "1024" /\
  params_for lat lng t !! "HEIGHT" = Some "1024".
Proof.
  repeat split; (rewrite params_for_other by discriminate); reflexivity.
Qed.

(** ** Answers of the handler *)

Lemma interpret_score threshold score :
  interpret threshold (Some score, None) =
  (JObj (list_to_map
     [ ("status", JStr (status_of score threshold));
       ("message", JStr (message_of score threshold));
       ("similarity_score", JFloat score);
       ("threshold_used", JFloat threshold) ]), 200).
Proof. reflexivity. Qed.

Lemma interpret_error threshold msg :
  msg <> EmptyString -> interpret threshold (None, Some msg) = (jsonify_error msg, 502).
Proof.
  intros Hm. unfold interpret, truthy_message.
  destruct (String.eqb_spec msg EmptyString); [contradiction | reflexivity].
Qed.

Lemma score_body_lookup threshold score :
  let body : gmap string json :=
    list_to_map
      [ ("status", JStr (status_of score threshold));
        ("message", JStr (message_of score threshold));
        ("similarity_score", JFloat score);
        ("threshold_used", JFloat threshold) ] in
  body !! "status" = Some (JStr (status_of score threshold)) /\
  body !! "message" = Some (JStr (message_of score threshold)) /\
  body !! "similarity_score" = Some (JFloat score) /\
  body !! "threshold_used" = Some (JFloat threshold).
Proof. repeat split; reflexivity. Qed.

Lemma requests_made_app (a b : trace) :
  requests_made (a ++ b) = requests_made a ++ requests_made b.
Proof. unfold requests_made. apply omap_app. Qed.

(** The answer to a returned score, through the handler. *)
Lemma api_score data lat lng date_str threshold tr score tr' :
  well_formed_body data lat lng date_str threshold ->
  get_nasa_similarity_for_location lat lng date_str threshold tr =
    (Val (Some score, None), tr') ->
  calculate_similarity_api data tr = (Val (interpret threshold (Some score, None)), tr').
Proof.
  intros Hw Hc. rewrite (api_well_formed _ _ _ _ _ _ Hw).
  unfold bind. rewrite Hc. reflexivity.
Qed.

(** The answer to a returned error, through the handler. *)
Lemma api_error data lat lng date_str threshold tr msg tr' :
  well_formed_body data lat lng date_str threshold ->
  msg <> EmptyString ->
  get_nasa_similarity_for_location lat lng date_str threshold tr =
    (Val (None, Some msg), tr') ->
  calculate_similarity_api data tr = (Val (jsonify_error msg, 502), tr').
Proof.
  intros Hw Hm Hc. rewrite (api_well_formed _ _ _ _ _ _ Hw).
  unfold bind. rewrite Hc. unfold ret. rewrite (interpret_error _ _ Hm). reflexivity.
Qed.

(** * The claims *)

(** C1.  When both initial fetches succeed, the week-prior score is strictly
    below the threshold and the fetch of the image of two weeks before fails,
    the core returns the week-prior score and no error, and the endpoint
    answers 200 with that score. *)
Theorem fallback_fetch_failure_keeps_week_score
    lat lng s threshold tr d d7 d14 vec1 score msg :
  initial_comparison lat lng s tr d d7 vec1 score ->
  (score <? threshold)%float = true ->
  minus_days 14 d = Some d14 ->
  fetch_fails (tr ++ week_events lat lng s d7 ++ [fallback_log score threshold])
    lat lng (strftime d14) msg ->
  let tr' :=
    tr ++ week_events lat lng s d7 ++
      [fallback_log score threshold;
       request_for lat lng (strftime d14);
       EvLog ERROR ("Failed to fetch 2-week fallback image: " +:+ msg)] in
  get_nasa_similarity_for_location lat lng (JStr s) threshold tr =
    (Val (Some score, None), tr') /\
  forall data,
    well_formed_body data lat lng (JStr s) threshold ->
    exists body : gmap string json,
      calculate_similarity_api data tr = (Val (JObj body, 200), tr') /\
      body !! "similarity_score" = Some (JFloat score).
Proof.
  intros Hi Hlt H14 Hf tr'.
  pose proof (compare_fallback_failed _ _ _ _ _ _ _ _ _ _ _ Hi Hlt H14 Hf) as Hc.
  split; [exact Hc|].
  intros data Hw. eexists. split.
  - rewrite (api_score _ _ _ _ _ _ _ _ Hw Hc), interpret_score. reflexivity.
  - apply score_body_lookup.
Qed.

(** C2.  When the week-prior score is strictly below the threshold and the
    fetch of the image of two weeks before succeeds, the core returns the
    similarity between the target-day vector and the two-weeks-before vector,
    whatever its value, and the invocation made exactly three requests: the
    two initial ones and one fallback. *)
Theorem fallback_score_replaces_week_score
    lat lng s threshold tr d d7 d14 vec1 score buf3 vec3 score2 :
  initial_comparison lat lng s tr d d7 vec1 score ->
  (score <? threshold)%float = true ->
  minus_days 14 d = Some d14 ->
  fetch_succeeds (tr ++ week_events lat lng s d7 ++ [fallback_log score threshold])
    lat lng (strftime d14) buf3 ->
  decoded buf3 vec3 ->
  cosine_similarity vec1 vec3 = Val score2 ->
  let evs :=
    week_events lat lng s d7 ++
      [fallback_log score threshold; request_for lat lng (strftime d14)] in
  get_nasa_similarity_for_location lat lng (JStr s) threshold tr =
    (Val (Some score2, None), tr ++ evs) /\
  requests_made evs =
    [ (nasa_base_url, params_for lat lng s);
      (nasa_base_url, params_for lat lng (strftime d7));
      (nasa_base_url, params_for lat lng (strftime d14)) ].
Proof.
  intros Hi Hlt H14 Hf Hd Hc evs. split; [|reflexivity].
  exact (compare_fallback_succeeded _ _ _ _ _ _ _ _ _ _ _ _ _ Hi Hlt H14 Hf Hd Hc).
Qed.

(** C3.  When both initial fetches succeed and the week-prior score is greater
    than or equal to the threshold, the invocation makes exactly the two
    initial requests, and the endpoint answers 200 with status IDENTICAL when
    the score equals 1.0 and NO_SIGNIFICANT_CHANGE otherwise. *)
Theorem no_fallback_at_or_above_threshold
    lat lng s threshold tr d d7 vec1 score :
  initial_comparison lat lng s tr d d7 vec1 score ->
  (threshold <=? score)%float = true ->
  get_nasa_similarity_for_location lat lng (JStr s) threshold tr =
    (Val (Some score, None), tr ++ week_events lat lng s d7) /\
  requests_made (week_events lat lng s d7) =
    [ (nasa_base_url, params_for lat lng s);
      (nasa_base_url, params_for lat lng (strftime d7)) ] /\
  forall data,
    well_formed_body data lat lng (JStr s) threshold ->
    exists body : gmap string json,
      calculate_similarity_api data tr =
        (Val (JObj body, 200), tr ++ week_events lat lng s d7) /\
      body !! "status" =
        Some (JStr (if (score =? 1)%float then "IDENTICAL" else "NO_SIGNIFICANT_CHANGE")).
Proof.
  intros Hi Hge.
  pose proof (float_leb_not_ltb _ _ Hge) as Hlt.
  pose proof (compare_no_fallback _ _ _ _ _ _ _ _ _ Hi Hlt) as Hc.
  split; [exact Hc|]. split; [reflexivity|].
  intros data Hw. eexists. split.
  - rewrite (api_score _ _ _ _ _ _ _ _ Hw Hc), interpret_score. reflexivity.
  - destruct (score_body_lookup threshold score) as [-> _].
    unfold status_of. rewrite Hlt. reflexivity.
Qed.

(** C4, as the code has it.  When [strptime] refuses the text of [date_str]
    ([parse_date] is [None]: the text does not match the pattern of
    ['%Y-%m-%d'], or more text follows the match, or the fields are no
    calendar date), the core logs the fact and returns
    (None, "Invalid date format. Please use YYYY-MM-DD.") without any
    request; the endpoint answers with that text and status 502, the status
    of every error the core returns. *)
Theorem invalid_date_is_reported_without_fetch lat lng s threshold tr :
  parse_date s = None ->
  let tr' := tr ++ [EvLog ERROR ("Invalid date format for: " +:+ s)] in
  get_nasa_similarity_for_location lat lng (JStr s) threshold tr =
    (Val (None, Some "Invalid date format. Please use YYYY-MM-DD."), tr') /\
  requests_made tr' = requests_made tr /\
  forall data,
    well_formed_body data lat lng (JStr s) threshold ->
    calculate_similarity_api data tr =
      (Val (jsonify_error "Invalid date format. Please use YYYY-MM-DD.", 502), tr').
Proof.
  intros Hp tr'.
  pose proof (compare_invalid_date lat lng s threshold tr Hp) as Hc.
  split; [exact Hc|]. split.
  - unfold tr'. rewrite requests_made_app. simpl. apply app_nil_r.
  - intros data Hw. apply (api_error _ _ _ _ _ _ _ _ Hw); [discriminate | exact Hc].
Qed.


(** C6.  Whenever the core returns a score, the endpoint answers 200 with a
    status that is IDENTICAL when the score equals 1.0, otherwise
    SIGNIFICANT_CHANGE_DETECTED when the score is below the threshold,
    otherwise NO_SIGNIFICANT_CHANGE, with [similarity_score] the score and
    [threshold_used] the threshold. *)
Theorem status_is_derived_from_final_score
    data lat lng date_str threshold tr score error tr' :
  well_formed_body data lat lng date_str threshold ->
  get_nasa_similarity_for_location lat lng date_str threshold tr =
    (Val (Some score, error), tr') ->
  exists body : gmap string json,
    calculate_similarity_api data tr = (Val (JObj body, 200), tr') /\
    body !! "status" =
      Some (JStr (if (score =? 1)%float then "IDENTICAL"
                  else if (score <? threshold)%float then "SIGNIFICANT_CHANGE_DETECTED"
                  else "NO_SIGNIFICANT_CHANGE")) /\
    body !! "similarity_score" = Some (JFloat score) /\
    body !! "threshold_used" = Some (JFloat threshold).
Proof.
  intros Hw Hc.
  assert (error = None) as ->.
  { destruct (compare_sound lat lng date_str threshold tr) as (evs & _ & _ & _ & Hr).
    rewrite Hc in Hr. simpl in Hr. destruct error; [contradiction | reflexivity]. }
  eexists. split.
  - rewrite (api_score _ _ _ _ _ _ _ _ Hw Hc), interpret_score. reflexivity.
  - destruct (score_body_lookup threshold score) as (-> & _ & -> & ->).
    repeat split; reflexivity.
Qed.




(** C8.  When the body has no [threshold] field, the threshold the handler
    reads is 0.75, the core is called as with its own default, 0.75, and a
    200 answer reports [threshold_used] as 0.75. *)
Theorem omitted_threshold_is_075
    (m : gmap string json) lat_v lng_v lat lng date_str tr :
  m !! "threshold" = None ->
  m !! "lat" = Some lat_v -> py_float lat_v = Val lat ->
  m !! "lng" = Some lng_v -> py_float lng_v = Val lng ->
  m !! "date_str" = Some date_str ->
  read_arguments (JObj m) = Val (lat, lng, date_str, 0.75%float) /\
  calculate_similarity_api (JObj m) tr =
    bind (get_nasa_similarity_for_location_default lat lng date_str)
         (fun r => ret (interpret 0.75%float r)) tr /\
  forall (body : gmap string json) tr',
    calculate_similarity_api (JObj m) tr = (Val (JObj body, 200), tr') ->
    body !! "threshold_used" = Some (JFloat 0.75%float).
Proof.
  intros Hth Hlat Hflat Hlng Hflng Hds.
  assert (Hw : well_formed_body (JObj m) lat lng date_str 0.75%float).
  { exists m, lat_v, lng_v. rewrite Hth. repeat split; assumption. }
  pose proof (api_well_formed _ _ _ _ _ tr Hw) as Ha.
  split; [|split; [exact Ha|]].
  - unfold read_arguments. simpl py_getitem. rewrite Hlat, Hflat, Hlng, Hflng, Hds.
    simpl py_get. rewrite Hth. reflexivity.
  - intros body tr'. rewrite Ha. unfold bind, ret.
    destruct (compare_sound lat lng date_str 0.75%float tr) as (evs & _ & _ & _ & Hr).
    destruct (get_nasa_similarity_for_location lat lng date_str 0.75%float tr)
      as [[[score error] | e] tr1]; [|discriminate].
    simpl in Hr. destruct score as [score|], error as [msg|]; try contradiction.
    + rewrite interpret_score. intros [= <- _]. apply score_body_lookup.
    + rewrite (interpret_error _ _ Hr). discriminate.
Qed.

(** C10.  In an invocation that reaches the fallback, the third request goes
    to the same service with the same parameters as the first, the TIME
    excepted, which is the target date minus 14 days. *)
Theorem fallback_request_differs_only_in_time
    lat lng s threshold tr d d7 d14 vec1 score :
  initial_comparison lat lng s tr d d7 vec1 score ->
  (score <? threshold)%float = true ->
  minus_days 14 d = Some d14 ->
  let primary := params_for lat lng s in
  let fallback := params_for lat lng (strftime d14) in
  (exists evs,
     snd (get_nasa_similarity_for_location lat lng (JStr s) threshold tr) = tr ++ evs /\
     requests_made evs =
       [ (nasa_base_url, primary);
         (nasa_base_url, params_for lat lng (strftime d7));
         (nasa_base_url, fallback) ]) /\
  fallback !! "TIME" = Some (strftime d14) /\
  primary !! "TIME" = Some s /\
  (forall k, k <> "TIME" -> fallback !! k = primary !! k) /\
  fallback !! "SERVICE" = Some "WMS" /\
  fallback !! "LAYERS" = Some "MODIS_Terra_CorrectedReflectance_TrueColor" /\
  fallback !! "FORMAT" = Some "image/png" /\
  fallback !! "CRS" = Some "EPSG:4326" /\
  fallback !! "BBOX" = Some (bbox_str lat lng) /\
  fallback !! "WIDTH" = Some "1024" /\
  fallback !! "HEIGHT" = Some "1024".
Proof.
  intros Hi Hlt H14 primary fallback.
  split.
  - initial_phase Hi. rewrite Hlt. unfold sub_days. rewrite H14.
    rewrite <- !app_assoc; simpl app.
    match goal with |- context [fetch_image lat lng (strftime d14) ?t] =>
      destruct (fetch_image_trace t lat lng (strftime d14)) as [o3 H3]; rewrite H3 end.
    destruct o3 as [buf3 | e3].
    2:{ rewrite (fetch_image_raises _ _ _ _ _ _ H3). simpl.
        eexists. split; [rewrite <- !app_assoc; reflexivity | reflexivity]. }
    destruct (imread buf3) as [img3|];
      [| eexists; split; [simpl; rewrite <- !app_assoc; reflexivity | reflexivity]].
    destruct (resize img3) as [res3|];
      [| eexists; split; [simpl; rewrite <- !app_assoc; reflexivity | reflexivity]].
    match goal with |- context [cosine_similarity ?u ?v] =>
      destruct (cosine_similarity u v) end;
      eexists; (split; [simpl; rewrite <- !app_assoc; reflexivity | reflexivity]).
  - destruct (params_for_fixed lat lng (strftime d14))
      as (Hs & _ & _ & Hl & Hf & Hc & Hb & Hwd & Hh).
    split; [apply params_for_time|]. split; [apply params_for_time|].
    split; [|tauto].
    intros k Hk. unfold fallback, primary. rewrite !params_for_other by exact Hk.
    reflexivity.
Qed.

End Reasoning.

(** * The claims on the test double *)

Section Witnesses.
Import Double.

(** ** Runs *)

Example parse_iso : parse_date "2023-08-15" = Some (Date 2023 8 15).
Proof. reflexivity. Qed.

Example parse_slashes : parse_date "2024/01/01" = None.
Proof. reflexivity. Qed.

Example parse_no_february_29 : parse_date "2023-02-29" = None.
Proof. reflexivity. Qed.

(** [strptime] takes a month or a day on one digit. *)
Example parse_short_fields : parse_date "2024-1-5" = Some (Date 2024 1 5).
Proof. reflexivity. Qed.

(** [\d] takes the decimal digits of every script: a year in fullwidth or in
    Arabic-Indic digits is read with its value; a month is not. *)
Example parse_fullwidth_year : parse_date "２０２３-08-15" = Some (Date 2023 8 15).
Proof. reflexivity. Qed.

Example parse_arabic_indic_year : parse_date "٢٠٢٣-08-15" = Some (Date 2023 8 15).
Proof. reflexivity. Qed.

Example parse_fullwidth_day : parse_date "2023-08-1５" = Some (Date 2023 8 15).
Proof. reflexivity. Qed.

Example parse_fullwidth_month : parse_date "2023-０8-15" = None.
Proof. reflexivity. Qed.

(** Such a text reaches the map service as it was given: on a service that
    answers every request, the core sends it as the TIME of the first request
    and the date a week before as the TIME of the second. *)
Example fullwidth_year_is_fetched :
  map (fun r => snd r !! "TIME")
    (requests_made
       (snd (get_nasa_similarity_for_location (E := env (fun _ => ok target_image))
               lat0 lng0 (JStr "２０２３-08-15") 0.75%float [])))
  = [Some "２０２３-08-15"; Some "2023-08-08"].
Proof. vm_compute. reflexivity. Qed.

(** [strftime] writes a year below 1000 without leading zeros. *)
Example week_before_year_999 :
  option_map strftime (minus_days 7 (Date 999 1 5)) = Some "998-12-29".
Proof. reflexivity. Qed.

Example week_before_january_10_of_year_1 :
  option_map strftime (minus_days 7 (Date 1 1 10)) = Some "1-01-03".
Proof. reflexivity. Qed.

Example two_weeks_before_march_10 :
  option_map strftime (minus_days 14 (Date 2024 3 10)) = Some "2024-02-25".
Proof. reflexivity. Qed.

(** Where the core raises instead of returning: a date in the first week of
    the year 1, and a [date_str] that is no text. *)
Example early_date_raises :
  fst (get_nasa_similarity_for_location (E := env net_steady)
         lat0 lng0 (JStr "0001-01-03") 0.75%float [])
  = Raise (Exc OverflowError "date value out of range").
Proof. reflexivity. Qed.

Example number_as_date_raises :
  fst (get_nasa_similarity_for_location (E := env net_steady)
         lat0 lng0 (JInt 20230815) 0.75%float [])
  = Raise (Exc TypeError "strptime() argument 1 must be str, not int").
Proof. reflexivity. Qed.

(** A body without [lng] is refused before the core is called. *)
Example missing_field_is_400 :
  calculate_similarity_api (E := env net_steady)
    (JObj (list_to_map [("lat", JFloat lat0); ("date_str", JStr "2023-08-15")])) []
  = (Val (jsonify_error
            "Missing one or more required fields: ['lat', 'lng', 'date_str']", 400),
     []).
Proof. vm_compute. reflexivity. Qed.

(** ** Witnesses *)

Ltac fetched buf :=
  exists (Response 200 "OK" "https://gibs.earthdata.nasa.gov/" buf);
  split; [reflexivity | split; [left; reflexivity | reflexivity]].

Ltac decode := eexists; eexists; split; [reflexivity | split; reflexivity].

Ltac body_ok :=
  eexists; exists (JFloat lat0), (JFloat lng0);
  split; [reflexivity | repeat split; reflexivity].

Lemma initial_far net :
  net "2023-08-15" = ok target_image ->
  net "2023-08-08" = ok week_image_far ->
  initial_comparison (E := env net) lat0 lng0 "2023-08-15" [] day0 day7 vec0
    (cosine vec0 (map pixel week_image_far)).
Proof.
  intros H0 H7. split; [reflexivity|]. split; [reflexivity|].
  exists target_image, week_image_far, (map pixel week_image_far).
  repeat split; try decode.
  - exists (Response 200 "OK" "https://gibs.earthdata.nasa.gov/" target_image).
    split; [exact H0 | split; [left; reflexivity | reflexivity]].
  - exists (Response 200 "OK" "https://gibs.earthdata.nasa.gov/" week_image_far).
    split; [exact H7 | split; [left; reflexivity | reflexivity]].
Qed.

Lemma fallback_fetch_failure_keeps_week_score_witness :
  fst (get_nasa_similarity_for_location (E := env net_fallback_down)
         lat0 lng0 (JStr "2023-08-15") 0.75%float [])
    = Val (Some (2 / 3)%float, None) /\
  exists b tr',
    calculate_similarity_api (E := env net_fallback_down) (body "2023-08-15") []
      = (Val (JObj b, 200), tr') /\
    b !! "similarity_score" = Some (JFloat (2 / 3)%float).
Proof.
  destruct (fallback_fetch_failure_keeps_week_score (E := env net_fallback_down)
              lat0 lng0 "2023-08-15" 0.75%float [] day0 day7 day14 vec0
              (cosine vec0 (map pixel week_image_far)) "Connection timed out"
              (initial_far net_fallback_down eq_refl eq_refl) eq_refl eq_refl
              (or_introl eq_refl)) as [Hc Ha].
  split.
  - rewrite Hc. reflexivity.
  - destruct (Ha (body "2023-08-15")) as (b & Hb & Hs); [body_ok|].
    exists b. eexists. split; [exact Hb | exact Hs].
Defined.

Lemma fallback_score_replaces_week_score_witness :
  get_nasa_similarity_for_location (E := env net_fallback_up)
    lat0 lng0 (JStr "2023-08-15") 0.75%float []
  = (Val (Some (1 / 3)%float, None),
     [ request_for (E := env net_fallback_up) lat0 lng0 "2023-08-15";
       request_for (E := env net_fallback_up) lat0 lng0 "2023-08-08";
       fallback_log (E := env net_fallback_up) (2 / 3)%float 0.75%float;
       request_for (E := env net_fallback_up) lat0 lng0 "2023-08-01" ]).
Proof.
  destruct (fallback_score_replaces_week_score (E := env net_fallback_up)
              lat0 lng0 "2023-08-15" 0.75%float [] day0 day7 day14 vec0
              (cosine vec0 (map pixel week_image_far))
              two_weeks_image (map pixel two_weeks_image)
              (cosine vec0 (map pixel two_weeks_image))
              (initial_far net_fallback_up eq_refl eq_refl) eq_refl eq_refl)
    as [Hc _]; [fetched two_weeks_image | decode | reflexivity |].
  rewrite Hc. reflexivity.
Defined.

Lemma initial_near :
  initial_comparison (E := env net_steady) lat0 lng0 "2023-08-15" [] day0 day7 vec0
    (cosine vec0 (map pixel week_image_near)).
Proof.
  split; [reflexivity|]. split; [reflexivity|].
  exists target_image, week_image_near, (map pixel week_image_near).
  repeat split; try decode; [fetched target_image | fetched week_image_near].
Qed.

Lemma no_fallback_at_or_above_threshold_witness :
  get_nasa_similarity_for_location (E := env net_steady)
    lat0 lng0 (JStr "2023-08-15") 0.75%float []
  = (Val (Some (8 / 9)%float, None),
     [ request_for (E := env net_steady) lat0 lng0 "2023-08-15";
       request_for (E := env net_steady) lat0 lng0 "2023-08-08" ]) /\
  exists b tr',
    calculate_similarity_api (E := env net_steady) (body "2023-08-15") []
      = (Val (JObj b, 200), tr') /\
    b !! "status" = Some (JStr "NO_SIGNIFICANT_CHANGE").
Proof.
  destruct (no_fallback_at_or_above_threshold (E := env net_steady)
              lat0 lng0 "2023-08-15" 0.75%float [] day0 day7 vec0
              (cosine vec0 (map pixel week_image_near)) initial_near eq_refl)
    as (Hc & _ & Ha).
  split.
  - rewrite Hc. reflexivity.
  - destruct (Ha (body "2023-08-15")) as (b & Hb & Hs); [body_ok|].
    exists b. eexists. split; [exact Hb | exact Hs].
Defined.

Lemma invalid_date_is_reported_without_fetch_witness :
  calculate_similarity_api (E := env net_steady) (body "2024/01/01") []
  = (Val (jsonify_error "Invalid date format. Please use YYYY-MM-DD.", 502),
     [EvLog ERROR "Invalid date format for: 2024/01/01"]).
Proof.
  destruct (invalid_date_is_reported_without_fetch (E := env net_steady)
              lat0 lng0 "2024/01/01" 0.75%float [] eq_refl) as (_ & _ & Ha).
  apply Ha. body_ok.
Defined.

(** C4, as the specification has it, fails: on the malformed date
    2024/01/01 the endpoint answers 502, not 400. *)
Lemma invalid_date_answers_502_not_400 :
  parse_date "2024/01/01" = None /\
  fst (calculate_similarity_api (E := env net_steady) (body "2024/01/01") [])
    = Val (jsonify_error "Invalid date format. Please use YYYY-MM-DD.", 502) /\
  ~ exists b tr',
      calculate_similarity_api (E := env net_steady) (body "2024/01/01") []
        = (Val (b, 400), tr').
Proof.
  assert (H : calculate_similarity_api (E := env net_steady) (body "2024/01/01") []
              = (Val (jsonify_error "Invalid date format. Please use YYYY-MM-DD.", 502),
                 [EvLog ERROR "Invalid date format for: 2024/01/01"]))
    by (vm_compute; reflexivity).
  split; [reflexivity|]. split; [rewrite H; reflexivity|].
  intros (b & tr' & Hb). rewrite H in Hb. discriminate.
Qed.


Lemma status_is_derived_from_final_score_witness :
  exists b tr',
    calculate_similarity_api (E := env net_fallback_up) (body "2023-08-15") []
      = (Val (JObj b, 200), tr') /\
    b !! "status" = Some (JStr "SIGNIFICANT_CHANGE_DETECTED") /\
    b !! "similarity_score" = Some (JFloat (1 / 3)%float) /\
    b !! "threshold_used" = Some (JFloat 0.75%float).
Proof.
  destruct (status_is_derived_from_final_score (E := env net_fallback_up)
              (body "2023-08-15") lat0 lng0 (JStr "2023-08-15") 0.75%float []
              (1 / 3)%float None
              (snd (get_nasa_similarity_for_location (E := env net_fallback_up)
                      lat0 lng0 (JStr "2023-08-15") 0.75%float [])))
    as (b & Hb & Hs & Hv & Ht); [body_ok | vm_compute; reflexivity |].
  exists b. eexists. split; [exact Hb|]. split; [exact Hs|]. split; [exact Hv | exact Ht].
Defined.

Lemma steady_answer :
  exists b tr',
    calculate_similarity_api (E := env net_steady) (body "2023-08-15") []
      = (Val (JObj b, 200), tr').
Proof.
  exists (match fst (calculate_similarity_api (E := env net_steady)
                       (body "2023-08-15") []) with
          | Val (JObj b, _) => b
          | _ => ∅
          end),
         (snd (calculate_similarity_api (E := env net_steady) (body "2023-08-15") [])).
  vm_compute. reflexivity.
Qed.

Lemma omitted_threshold_is_075_witness :
  read_arguments (E := env net_steady) (body "2023-08-15")
    = Val (lat0, lng0, JStr "2023-08-15", 0.75%float) /\
  exists b tr',
    calculate_similarity_api (E := env net_steady) (body "2023-08-15") []
      = (Val (JObj b, 200), tr') /\
    b !! "threshold_used" = Some (JFloat 0.75%float).
Proof.
  destruct (omitted_threshold_is_075 (E := env net_steady)
              (list_to_map
                 [ ("lat", JFloat lat0); ("lng", JFloat lng0);
                   ("date_str", JStr "2023-08-15") ])
              (JFloat lat0) (JFloat lng0) lat0 lng0 (JStr "2023-08-15") [])
    as (Hr & _ & Ht); [vm_compute; reflexivity .. |].
  split; [exact Hr|].
  destruct steady_answer as (b & tr' & Hb).
  exists b, tr'. split; [exact Hb | exact (Ht b tr' Hb)].
Defined.

Lemma fallback_request_differs_only_in_time_witness :
  parse_date "2023-08-15" = Some day0 /\
  minus_days 14 day0 = Some day14 /\
  strftime day14 = "2023-08-01" /\
  requests_made
    (snd (get_nasa_similarity_for_location (E := env net_fallback_down)
            lat0 lng0 (JStr "2023-08-15") 0.75%float []))
  = [ (nasa_base_url, params_for (E := env net_fallback_down) lat0 lng0 "2023-08-15");
      (nasa_base_url, params_for (E := env net_fallback_down) lat0 lng0 "2023-08-08");
      (nasa_base_url, params_for (E := env net_fallback_down) lat0 lng0 "2023-08-01") ].
Proof.
  destruct (fallback_request_differs_only_in_time (E := env net_fallback_down)
              lat0 lng0 "2023-08-15" 0.75%float [] day0 day7 day14 vec0
              (cosine vec0 (map pixel week_image_far))
              (initial_far net_fallback_down eq_refl eq_refl) eq_refl eq_refl)
    as ((evs & Htr & Hreq) & _).
  split; [reflexivity|]. split; [reflexivity|]. split; [reflexivity|].
  rewrite Htr. exact Hreq.
Defined.

End Witnesses.

(** * Beyond the claims: every path of the core and of the handler *)

Ltac run_core :=
  unfold get_nasa_similarity_for_location, try_except, bind, eval, ret,
    logging_info, logging_error, emit;
  simpl strptime; simpl py_str.

Section Paths.
Context `{E : Env}.

#[local] Arguments minus_days : simpl never.
#[local] Arguments strftime : simpl never.

(** ** The paths of the core

    [core_path lat lng date_str threshold tr o evs]: started after [tr], the
    core can end in [o] having performed the events [evs].  One constructor
    per way through lines 25-101. *)
Inductive core_path (lat lng : float) (date_str : json) (threshold : float) (tr : trace)
    : outcome (option float * option string) -> list event -> Prop :=
  | path_not_text :
      (forall s, date_str <> JStr s) ->
      core_path lat lng date_str threshold tr
        (Raise (Exc TypeError
           ("strptime() argument 1 must be str, not " +:+ argument_name date_str)))
        []
  | path_bad_date s :
      date_str = JStr s -> parse_date s = None ->
      core_path lat lng date_str threshold tr
        (Val (None, Some "Invalid date format. Please use YYYY-MM-DD."))
        [EvLog ERROR ("Invalid date format for: " +:+ s)]
  | path_no_week_before s d :
      date_str = JStr s -> parse_date s = Some d -> minus_days 7 d = None ->
      core_path lat lng date_str threshold tr
        (Raise (Exc OverflowError "date value out of range")) []
  | path_fetch_failed s d d7 msg evs :
      date_str = JStr s -> parse_date s = Some d -> minus_days 7 d = Some d7 ->
      initial_fetch_failure lat lng s d7 tr msg evs ->
      core_path lat lng date_str threshold tr
        (Val (None, Some ("Could not retrieve images from NASA. Error: " +:+ msg)))
        (evs ++ [EvLog ERROR ("Failed to fetch initial images from NASA GIBS: " +:+ msg)])
  | path_decode_failed s d d7 e :
      date_str = JStr s -> parse_date s = Some d -> minus_days 7 d = Some d7 ->
      core_path lat lng date_str threshold tr (Raise e) (week_events lat lng s d7)
  | path_steady s d d7 vec1 score :
      date_str = JStr s ->
      initial_comparison lat lng s tr d d7 vec1 score ->
      (score <? threshold)%float = false ->
      core_path lat lng date_str threshold tr
        (Val (Some score, None)) (week_events lat lng s d7)
  | path_no_two_weeks_before s d d7 vec1 score :
      date_str = JStr s ->
      initial_comparison lat lng s tr d d7 vec1 score ->
      (score <? threshold)%float = true ->
      minus_days 14 d = None ->
      core_path lat lng date_str threshold tr
        (Raise (Exc OverflowError "date value out of range"))
        (week_events lat lng s d7 ++ [fallback_log score threshold])
  | path_fallback_failed s d d7 d14 vec1 score msg :
      date_str = JStr s ->
      initial_comparison lat lng s tr d d7 vec1 score ->
      (score <? threshold)%float = true ->
      minus_days 14 d = Some d14 ->
      fetch_fails (tr ++ week_events lat lng s d7 ++ [fallback_log score threshold])
        lat lng (strftime d14) msg ->
      core_path lat lng date_str threshold tr
        (Val (Some score, None))
        (week_events lat lng s d7 ++
           [fallback_log score threshold;
            request_for lat lng (strftime d14);
            EvLog ERROR ("Failed to fetch 2-week fallback image: " +:+ msg)])
  | path_fallback_decode_failed s d d7 d14 vec1 score e :
      date_str = JStr s ->
      initial_comparison lat lng s tr d d7 vec1 score ->
      (score <? threshold)%float = true ->
      minus_days 14 d = Some d14 ->
      core_path lat lng date_str threshold tr (Raise e)
        (week_events lat lng s d7 ++
           [fallback_log score threshold; request_for lat lng (strftime d14)])
  | path_fallback s d d7 d14 vec1 score score2 :
      date_str = JStr s ->
      initial_comparison lat lng s tr d d7 vec1 score ->
      (score <? threshold)%float = true ->
      minus_days 14 d = Some d14 ->
      core_path lat lng date_str threshold tr
        (Val (Some score2, None))
        (week_events lat lng s d7 ++
           [fallback_log score threshold; request_for lat lng (strftime d14)]).

Ltac end_of_path tac :=
  eexists; split;
  [ simpl fst; tac
  | simpl snd; rewrite <- ?app_assoc; simpl app;
    first [ reflexivity | symmetry; apply app_nil_r ] ].

(** Every invocation follows one of the paths, and only extends the trace. *)
Lemma compare_run lat lng date_str threshold tr :
  exists evs,
    core_path lat lng date_str threshold tr
      (fst (get_nasa_similarity_for_location lat lng date_str threshold tr)) evs /\
    snd (get_nasa_similarity_for_location lat lng date_str threshold tr) = tr ++ evs.
Proof.
  destruct date_str as [| b | z | f | s | l | m]; run_core;
    try (end_of_path ltac:(apply path_not_text; discriminate)).
  destruct (parse_date s) as [d|] eqn:Hp.
  2:{ end_of_path ltac:(apply (path_bad_date _ _ _ _ _ s); auto). }
  unfold sub_days.
  destruct (minus_days 7 d) as [d7|] eqn:H7.
  2:{ end_of_path ltac:(apply (path_no_week_before _ _ _ _ _ s d); auto). }
  destruct (fetch_image_cases tr lat lng s) as [[buf1 Hf1] | [msg Hf1]].
  2:{ rewrite (fetch_image_fails _ _ _ _ _ Hf1). simpl.
      end_of_path ltac:(apply (path_fetch_failed _ _ _ _ _ s d d7 msg [request_for lat lng s]);
                        auto; left; auto). }
  rewrite (fetch_image_succeeds _ _ _ _ _ Hf1).
  destruct (fetch_image_cases (tr ++ [request_for lat lng s]) lat lng (strftime d7))
    as [[buf2 Hf2] | [msg Hf2]].
  2:{ rewrite (fetch_image_fails _ _ _ _ _ Hf2). simpl.
      end_of_path ltac:(apply (path_fetch_failed _ _ _ _ _ s d d7 msg (week_events lat lng s d7));
                        auto; right; eauto). }
  rewrite (fetch_image_succeeds _ _ _ _ _ Hf2). simpl fst; simpl snd.
  destruct (imread buf1) as [img1 | e] eqn:Hr1;
    [| end_of_path ltac:(apply (path_decode_failed _ _ _ _ _ s d d7); auto)].
  destruct (imread buf2) as [img2 | e] eqn:Hr2;
    [| end_of_path ltac:(apply (path_decode_failed _ _ _ _ _ s d d7); auto)].
  destruct (resize img1) as [res1 | e] eqn:Hz1;
    [| end_of_path ltac:(apply (path_decode_failed _ _ _ _ _ s d d7); auto)].
  destruct (resize img2) as [res2 | e] eqn:Hz2;
    [| end_of_path ltac:(apply (path_decode_failed _ _ _ _ _ s d d7); auto)].
  destruct (cosine_similarity (flatten res1) (flatten res2)) as [score | e] eqn:Hc;
    [| end_of_path ltac:(apply (path_decode_failed _ _ _ _ _ s d d7); auto)].
  assert (Hi : initial_comparison lat lng s tr d d7 (flatten res1) score).
  { split; [exact Hp|]. split; [exact H7|].
    exists buf1, buf2, (flatten res2). repeat split; auto.
    - exists img1, res1. auto.
    - exists img2, res2. auto. }
  destruct (score <? threshold)%float eqn:Hlt.
  2:{ end_of_path ltac:(apply (path_steady _ _ _ _ _ s d d7 (flatten res1)); auto). }
  destruct (minus_days 14 d) as [d14|] eqn:H14.
  2:{ end_of_path
        ltac:(apply (path_no_two_weeks_before _ _ _ _ _ s d d7 (flatten res1) score); auto). }
  rewrite <- !app_assoc; simpl app.
  destruct (fetch_image_cases
              (tr ++ week_events lat lng s d7 ++ [fallback_log score threshold])
              lat lng (strftime d14)) as [[buf3 Hf3] | [msg Hf3]];
    assert (Hf3' := Hf3);
    unfold week_events, fallback_log in Hf3'; simpl app in Hf3'; simpl py_str in Hf3'.
  2:{ rewrite (fetch_image_fails _ _ _ _ _ Hf3'). simpl.
      end_of_path
        ltac:(apply (path_fallback_failed _ _ _ _ _ s d d7 d14 (flatten res1) score msg);
              auto). }
  rewrite (fetch_image_succeeds _ _ _ _ _ Hf3').
  destruct (imread buf3) as [img3 | e] eqn:Hr3;
    [| end_of_path
         ltac:(apply (path_fallback_decode_failed _ _ _ _ _ s d d7 d14 (flatten res1) score);
               auto)].
  destruct (resize img3) as [res3 | e] eqn:Hz3;
    [| end_of_path
         ltac:(apply (path_fallback_decode_failed _ _ _ _ _ s d d7 d14 (flatten res1) score);
               auto)].
  destruct (cosine_similarity (flatten res1) (flatten res3)) as [score2 | e] eqn:Hc3;
    [| end_of_path
         ltac:(apply (path_fallback_decode_failed _ _ _ _ _ s d d7 d14 (flatten res1) score);
               auto)].
  end_of_path ltac:(apply (path_fallback _ _ _ _ _ s d d7 d14 (flatten res1) score); auto).
Qed.

End Paths.

(** ** More on dates *)

Lemma digit_val_digit_char (x : Z) :
  0 <= x <= 9 -> digit_val (digit_char x) = Some x.
Proof.
  intros Hx.
  assert (Hn : x = Z.of_nat (Z.to_nat x)) by lia.
  remember (Z.to_nat x) as n eqn:En. clear En.
  assert (Hb : (n <= 9)%nat) by lia. rewrite Hn. clear Hn Hx x.
  do 10 (destruct n as [|n]; [reflexivity|]). lia.
Qed.

Lemma four_digits (y : Z) :
  0 <= y <= 9999 ->
  1000 * (y / 1000 mod 10) + 100 * (y / 100 mod 10) + 10 * (y / 10 mod 10) + y mod 10 = y.
Proof.
  intros Hy.
  assert (E100 : y / 100 = y / 10 / 10) by (rewrite Z.div_div by lia; reflexivity).
  assert (E1000 : y / 1000 = y / 100 / 10) by (rewrite Z.div_div by lia; reflexivity).
  pose proof (Z.div_mod y 10 ltac:(lia)) as H0.
  pose proof (Z.div_mod (y / 10) 10 ltac:(lia)) as H1.
  pose proof (Z.div_mod (y / 100) 10 ltac:(lia)) as H2.
  rewrite <- E100 in H1. rewrite <- E1000 in H2.
  assert (H3 : y / 1000 mod 10 = y / 1000).
  { apply Z.mod_small. split; [apply Z.div_pos; lia | apply Z.div_lt_upper_bound; lia]. }
  lia.
Qed.

Lemma unicode_digit_digit_char (x : Z) (rest : string) :
  0 <= x <= 9 -> unicode_digit (String (digit_char x) rest) = Some (x, rest).
Proof.
  intros Hx.
  assert (Hn : x = Z.of_nat (Z.to_nat x)) by lia.
  remember (Z.to_nat x) as n eqn:En. clear En.
  assert (Hb : (n <= 9)%nat) by lia. rewrite Hn. clear Hn Hx x.
  do 10 (destruct n as [|n]; [reflexivity|]). lia.
Qed.

Lemma unicode_digit_dash (rest : string) : unicode_digit (String "-" rest) = None.
Proof. reflexivity. Qed.

Lemma mod_10_digit (a : Z) : 0 <= a mod 10 <= 9.
Proof. pose proof (Z.mod_pos_bound a 10 ltac:(lia)). lia. Qed.

Lemma match_year_pad4 {A} (y : Z) (rest : string) (k : Z -> string -> option A) :
  0 <= y <= 9999 -> match_year (pad4 y +:+ rest) k = k y rest.
Proof.
  intros Hy. unfold pad4, pad2, match_year, match_digit. cbv [String.append].
  rewrite !unicode_digit_digit_char by apply mod_10_digit.
  rewrite four_digits by exact Hy. reflexivity.
Qed.

Ltac closed_of_nat :=
  match goal with
  | |- context [Z.of_nat ?n] =>
      let z := eval vm_compute in (Z.of_nat n) in change (Z.of_nat n) with z
  end.

Lemma match_month_pad2 {A} (m : Z) (rest : string) (k : Z -> string -> option A) v :
  1 <= m <= 12 -> k m rest = Some v -> match_month (pad2 m +:+ rest) k = Some v.
Proof.
  intros Hm.
  assert (Hn : m = Z.of_nat (Z.to_nat m)) by lia.
  remember (Z.to_nat m) as n eqn:En. clear En.
  assert (Hb : (n <= 12)%nat) by lia. subst m.
  destruct n as [|n]; [lia|].
  do 12 (destruct n as [|n];
         [closed_of_nat; intros Hk; vm_compute; rewrite Hk; reflexivity |]).
  lia.
Qed.

Lemma match_day_pad2 {A} (d : Z) (rest : string) (k : Z -> string -> option A) v :
  1 <= d <= 31 -> k d rest = Some v -> match_day (pad2 d +:+ rest) k = Some v.
Proof.
  intros Hd.
  assert (Hn : d = Z.of_nat (Z.to_nat d)) by lia.
  remember (Z.to_nat d) as n eqn:En. clear En.
  assert (Hb : (n <= 31)%nat) by lia. subst d.
  destruct n as [|n]; [lia|].
  do 31 (destruct n as [|n];
         [closed_of_nat; intros Hk; vm_compute; rewrite Hk; reflexivity |]).
  lia.
Qed.

Lemma days_in_month_bounds (y m : Z) : 28 <= days_in_month y m <= 31.
Proof.
  unfold days_in_month.
  repeat match goal with |- context [if ?b then _ else _] => destruct b end; lia.
Qed.

Lemma valid_date_bounds (d : date) :
  valid_date d = true ->
  1 <= year d <= 9999 /\ 1 <= month d <= 12 /\
  1 <= day d <= days_in_month (year d) (month d).
Proof.
  unfold valid_date. intros Hv.
  repeat (apply andb_prop in Hv; destruct Hv as [Hv ?]). lia.
Qed.

(** The text [strftime] would write with the year on four digits. *)
Definition padded_text (d : date) : string :=
  pad4 (year d) +:+ "-" +:+ pad2 (month d) +:+ "-" +:+ pad2 (day d).

(** A date written with the year on four digits is read back by [strptime]. *)
Lemma parse_padded_text (d : date) :
  valid_date d = true -> parse_date (padded_text d) = Some d.
Proof.
  intros Hv. destruct (valid_date_bounds d Hv) as (Hy & Hm & Hd).
  pose proof (days_in_month_bounds (year d) (month d)) as Hb.
  assert (Hymd : match_ymd (padded_text d) = Some (d, EmptyString)).
  { unfold match_ymd, padded_text.
    rewrite match_year_pad4 by lia. simpl match_dash.
    apply match_month_pad2; [lia|]. simpl match_dash.
    replace (pad2 (day d)) with (pad2 (day d) +:+ EmptyString)
      by (unfold pad2; reflexivity).
    apply match_day_pad2; [lia|]. destruct d; reflexivity. }
  unfold parse_date. rewrite Hymd, Hv. reflexivity.
Qed.

(** The zeros [%Y] leaves out. *)
Definition missing_zeros (y : Z) : string :=
  if y <? 10 then "000" else if y <? 100 then "00" else if y <? 1000 then "0"
  else EmptyString.

Lemma year_text_padded (y : Z) : 0 <= y -> pad4 y = missing_zeros y +:+ year_text y.
Proof.
  intros Hy. unfold missing_zeros, year_text, pad4, pad3, pad2.
  destruct (y <? 10) eqn:H1; [| destruct (y <? 100) eqn:H2; [| destruct (y <? 1000) eqn:H3]].
  - rewrite (Z.div_small y 1000), (Z.div_small y 100), (Z.div_small y 10),
      (Z.mod_small y 10) by lia. reflexivity.
  - rewrite (Z.div_small y 1000), (Z.div_small y 100) by lia. reflexivity.
  - rewrite (Z.div_small y 1000) by lia. reflexivity.
  - reflexivity.
Qed.

Lemma padded_text_strftime (d : date) :
  0 <= year d -> padded_text d = missing_zeros (year d) +:+ strftime d.
Proof.
  intros Hy. unfold padded_text, strftime.
  rewrite (year_text_padded (year d) Hy).
  generalize (year_text (year d)) as t. intros t.
  unfold missing_zeros. repeat match goal with |- context [if ?b then _ else _] => destruct b end;
    reflexivity.
Qed.

Lemma strftime_length (d : date) :
  (String.length (strftime d) + String.length (missing_zeros (year d)) = 10)%nat.
Proof.
  unfold strftime, year_text, missing_zeros, pad4, pad3, pad2.
  repeat match goal with |- context [if ?b then _ else _] => destruct b end; reflexivity.
Qed.

Lemma missing_zeros_length (y y' : Z) :
  String.length (missing_zeros y) = String.length (missing_zeros y') ->
  missing_zeros y = missing_zeros y'.
Proof.
  unfold missing_zeros.
  repeat match goal with |- context [if ?b then _ else _] => destruct b end;
    simpl; intros H; try reflexivity; discriminate.
Qed.

(** Two valid dates that [strftime] writes alike are the same date. *)
Lemma strftime_inj (d d' : date) :
  valid_date d = true -> valid_date d' = true -> strftime d = strftime d' -> d = d'.
Proof.
  intros Hv Hv' He.
  destruct (valid_date_bounds d Hv) as (Hy & _).
  destruct (valid_date_bounds d' Hv') as (Hy' & _).
  pose proof (strftime_length d) as Hl. pose proof (strftime_length d') as Hl'.
  rewrite He in Hl.
  assert (Hz : missing_zeros (year d) = missing_zeros (year d'))
    by (apply missing_zeros_length; lia).
  pose proof (parse_padded_text d Hv) as P. pose proof (parse_padded_text d' Hv') as P'.
  rewrite padded_text_strftime in P, P' by lia.
  rewrite Hz, He, P' in P. congruence.
Qed.

(** From the year 1000 on, what [strftime] writes, [strptime] reads back as
    the same date. *)
Lemma parse_strftime (d : date) :
  valid_date d = true -> 1000 <= year d -> parse_date (strftime d) = Some d.
Proof.
  intros Hv Hy. pose proof (parse_padded_text d Hv) as P.
  rewrite padded_text_strftime in P by lia.
  unfold missing_zeros in P.
  destruct (year d <? 10) eqn:H1; [lia|]. destruct (year d <? 100) eqn:H2; [lia|].
  destruct (year d <? 1000) eqn:H3; [lia|]. exact P.
Qed.

(** Before the year 1000 the text has fewer than four digits before its first
    dash, and [strptime] refuses it. *)
Lemma parse_strftime_short (d : date) :
  valid_date d = true -> year d < 1000 -> parse_date (strftime d) = None.
Proof.
  intros Hv Hy. destruct (valid_date_bounds d Hv) as (Hy1 & _).
  assert (Hm : match_ymd (strftime d) = None).
  { unfold match_ymd, strftime, year_text, match_year, match_digit, pad3, pad2.
    destruct (year d <? 10) eqn:H1; [| destruct (year d <? 100) eqn:H2;
      [| destruct (year d <? 1000) eqn:H3; [| lia]]];
      cbv [String.append];
      rewrite ?unicode_digit_digit_char by (first [apply mod_10_digit | lia]);
      rewrite unicode_digit_dash; reflexivity. }
  unfold parse_date. rewrite Hm. reflexivity.
Qed.

(** What [strptime] reads in a text that [strftime] wrote is the date
    written. *)
Lemma parse_strftime_same (d d' : date) :
  valid_date d = true -> parse_date (strftime d) = Some d' -> d' = d.
Proof.
  intros Hv Hp. destruct (Z_lt_dec (year d) 1000) as [Hy | Hy].
  - rewrite (parse_strftime_short d Hv Hy) in Hp. discriminate.
  - rewrite (parse_strftime d Hv) in Hp by lia. congruence.
Qed.

(** A number that orders the valid dates as the calendar does. *)
Definition date_key (d : date) : Z := (year d * 12 + month d) * 32 + day d.

Lemma prev_day_key (d d' : date) :
  valid_date d = true -> prev_day d = Some d' -> date_key d' < date_key d.
Proof.
  intros Hv Hp. destruct (valid_date_bounds d Hv) as (Hy & Hm & Hd).
  pose proof (days_in_month_bounds (year d) (month d - 1)) as Hb.
  unfold prev_day in Hp. unfold date_key.
  destruct (1 <? day d) eqn:H1; [injection Hp as <-; simpl; lia|].
  destruct (1 <? month d) eqn:H2; [injection Hp as <-; simpl; lia|].
  destruct (1 <? year d) eqn:H3; [injection Hp as <-; simpl; lia | discriminate].
Qed.

Lemma minus_days_key (n : nat) (d d' : date) :
  valid_date d = true -> minus_days n d = Some d' ->
  date_key d' <= date_key d /\ (n <> 0%nat -> date_key d' < date_key d).
Proof.
  revert d. induction n as [|n IH]; simpl; intros d Hv H.
  - injection H as <-. split; [lia | congruence].
  - destruct (prev_day d) as [p|] eqn:Hp; [|discriminate].
    pose proof (prev_day_key d p Hv Hp) as Hlt.
    destruct (IH p (prev_day_valid d p Hv Hp) H) as [Hle _]. lia.
Qed.

(** [d - timedelta(days=n)] overflows exactly in the first [n] days of the
    year 1. *)
Lemma minus_days_none (n : nat) (d : date) :
  valid_date d = true -> (n <= 28)%nat ->
  (minus_days n d = None <-> year d = 1 /\ month d = 1 /\ day d <= Z.of_nat n).
Proof.
  revert d. induction n as [|n IH]; intros d Hv Hn.
  - destruct (valid_date_bounds d Hv) as (Hy & Hm & Hd). simpl. split; [discriminate | lia].
  - destruct (valid_date_bounds d Hv) as (Hy & Hm & Hd). simpl.
    destruct (prev_day d) as [p|] eqn:Hp.
    + rewrite (IH p (prev_day_valid d p Hv Hp)) by lia.
      unfold prev_day in Hp.
      destruct (1 <? day d) eqn:H1; [injection Hp as <-; simpl; lia|].
      destruct (1 <? month d) eqn:H2.
      { injection Hp as <-; simpl.
        pose proof (days_in_month_bounds (year d) (month d - 1)). lia. }
      destruct (1 <? year d) eqn:H3; [injection Hp as <-; simpl; lia | discriminate].
    + unfold prev_day in Hp.
      destruct (1 <? day d) eqn:H1; [discriminate|].
      destruct (1 <? month d) eqn:H2; [discriminate|].
      destruct (1 <? year d) eqn:H3; [discriminate|].
      split; [lia | reflexivity].
Qed.

(** ** Floats that are not numbers *)

Lemma SFcompare_refl (f : spec_float) :
  SFcompare f f = Some Eq \/ f = S754_nan.
Proof.
  destruct f as [[]|[]| |[] m e]; simpl; auto;
    rewrite Z.compare_refl, Pos.compare_cont_refl; auto.
Qed.

(** Nothing is below a NaN. *)
Lemma float_ltb_nan (x t : float) :
  (t =? t)%float = false -> (x <? t)%float = false.
Proof.
  rewrite FloatAxioms.eqb_spec, FloatAxioms.ltb_spec. unfold SFeqb, SFltb.
  destruct (SFcompare_refl (Prim2SF t)) as [-> | ->]; [discriminate|].
  intros _. destruct (Prim2SF x) as [[]|[]| |[] m e]; reflexivity.
Qed.

(** * The claims on every invocation of the core *)

Section EveryInvocation.
Context `{E : Env}.

#[local] Arguments minus_days : simpl never.
#[local] Arguments strftime : simpl never.



(** C9.  On a date the core accepts, the first event of the invocation is a
    request to the map service whose BBOX is the text of lng-0.5, lat-0.5,
    lng+0.5, lat+0.5 joined by commas, whose size is 1024 by 1024 and whose
    TIME is the date given.  When the service answers it with a status
    outside 400..599, the next event is the second request, for the date a
    week before: it has the same parameters, the TIME excepted, hence the
    same BBOX and size.  Every request of the invocation goes to the map
    service with that BBOX and that size. *)
Theorem requests_carry_the_bounding_box lat lng s threshold tr d d7 :
  parse_date s = Some d ->
  minus_days 7 d = Some d7 ->
  let box :=
    String.concat ","
      [ py_str (JFloat (lng - 0.5)%float); py_str (JFloat (lat - 0.5)%float);
        py_str (JFloat (lng + 0.5)%float); py_str (JFloat (lat + 0.5)%float) ] in
  let carries (p : gmap string string) :=
    p !! "BBOX" = Some box /\ p !! "WIDTH" = Some "1024" /\ p !! "HEIGHT" = Some "1024" in
  exists p1 evs,
    snd (get_nasa_similarity_for_location lat lng (JStr s) threshold tr)
      = tr ++ EvGet nasa_base_url p1 :: evs /\
    p1 !! "TIME" = Some s /\
    carries p1 /\
    (forall r,
       upstream tr nasa_base_url p1 = Reply r ->
       status_code r < 400 \/ 600 <= status_code r ->
       exists p2 evs',
         evs = EvGet nasa_base_url p2 :: evs' /\
         p2 !! "TIME" = Some (strftime d7) /\
         carries p2 /\
         forall k, k <> "TIME" -> p2 !! k = p1 !! k) /\
    (forall u p,
       (u, p) ∈ requests_made (EvGet nasa_base_url p1 :: evs) ->
       u = nasa_base_url /\ carries p).
Proof.
  intros Hp H7 box carries.
  assert (Hcar : forall t, carries (params_for lat lng t)).
  { intros t. destruct (params_for_fixed lat lng t) as (_ & _ & _ & _ & _ & _ & Hb & Hw & Hh).
    repeat split; assumption. }
  destruct (compare_run lat lng (JStr s) threshold tr) as (evs & Hpath & Htr).
  destruct (compare_sound lat lng (JStr s) threshold tr) as (evs0 & Htr0 & Hall & _).
  assert (evs0 = evs) as -> by (apply (app_inv_head tr); congruence).
  assert (Hshape : exists rest,
            evs = request_for lat lng s :: rest /\
            forall r,
              upstream tr nasa_base_url (params_for lat lng s) = Reply r ->
              status_code r < 400 \/ 600 <= status_code r ->
              exists rest', rest = request_for lat lng (strftime d7) :: rest').
  { inversion Hpath; subst;
      repeat match goal with
             | H : JStr _ = JStr _ |- _ => injection H as <-
             | H : initial_comparison _ _ _ _ _ _ _ _ |- _ =>
                 destruct H as (? & ? & _)
             end;
      try match goal with
          | H : forall s0, JStr _ <> JStr s0 |- _ => exfalso; exact (H _ eq_refl)
          end;
      try congruence;
      repeat match goal with
             | H : parse_date s = Some ?d0 |- _ =>
                 assert (d0 = d) by congruence; subst d0; clear H
             | H : minus_days 7 d = Some ?d0 |- _ =>
                 assert (d0 = d7) by congruence; subst d0; clear H
             end;
      try (unfold week_events; simpl app; eexists; split; [reflexivity|];
           intros; eexists; reflexivity).
    match goal with
    | H : initial_fetch_failure _ _ _ _ _ _ _ |- _ =>
        destruct H as [[Hff ->] | (buf1 & _ & _ & ->)]
    end.
    - simpl app. eexists. split; [reflexivity|].
      intros r Hr Hok. exfalso.
      destruct Hff as [Hn | (r' & Hr' & Hst & _)].
      + rewrite Hn in Hr. discriminate.
      + rewrite Hr' in Hr. injection Hr as <-. lia.
    - unfold week_events; simpl app. eexists. split; [reflexivity|].
      intros; eexists; reflexivity. }
  destruct Hshape as (rest & -> & Hnext).
  exists (params_for lat lng s), rest.
  split; [exact Htr|]. split; [apply params_for_time|]. split; [apply Hcar|]. split.
  - intros r Hr Hok. destruct (Hnext r Hr Hok) as (rest' & ->).
    exists (params_for lat lng (strftime d7)), rest'.
    split; [reflexivity|]. split; [apply params_for_time|]. split; [apply Hcar|].
    intros k Hk. rewrite !params_for_other by exact Hk. reflexivity.
  - intros u p Hin. unfold requests_made in Hin.
    apply list_elem_of_omap in Hin as (ev & Hev & Hsome).
    rewrite Forall_forall in Hall. specialize (Hall ev Hev).
    destruct ev as [u' p' | lvl txt]; [|discriminate].
    injection Hsome as -> ->. destruct Hall as (-> & t & ->).
    split; [reflexivity | apply Hcar].
Qed.

End EveryInvocation.

Section Extras.
Context `{E : Env}.

#[local] Arguments minus_days : simpl never.
#[local] Arguments strftime : simpl never.

(** ** The paths of the handler *)

(** The first conversion of lines 119-122 that fails, fails with [e]. *)
Definition conversion_failure (m : gmap string json) (e : pyexc) : Prop :=
  exists lat_v lng_v date_str,
    m !! "lat" = Some lat_v /\ m !! "lng" = Some lng_v /\ m !! "date_str" = Some date_str /\
    (py_float lat_v = Raise e \/
     ((exists lat, py_float lat_v = Val lat) /\ py_float lng_v = Raise e) \/
     ((exists lat, py_float lat_v = Val lat) /\ (exists lng, py_float lng_v = Val lng) /\
      py_float (match m !! "threshold" with Some x => x | None => JFloat 0.75%float end)
        = Raise e)).

Lemma conversion_failure_read m e :
  conversion_failure m e ->
  truthy (JObj m) = true /\
  all_in required_fields (JObj m) = Val true /\
  read_arguments (JObj m) = Raise e.
Proof.
  intros (lat_v & lng_v & ds & Hlat & Hlng & Hds & H). split; [|split].
  - simpl. rewrite bool_decide_eq_false_2; [reflexivity|].
    intros ->. rewrite lookup_empty in Hlat. discriminate.
  - simpl. rewrite Hlat, Hlng, Hds. rewrite !bool_decide_eq_true_2 by eauto. reflexivity.
  - unfold read_arguments. simpl py_getitem. rewrite Hlat.
    destruct H as [H | [[[x Hx] H] | [[x Hx] [[y Hy] H]]]].
    + rewrite H. reflexivity.
    + rewrite Hx, Hlng, H. reflexivity.
    + rewrite Hx, Hlng, Hy, Hds. simpl py_get. cbv iota. rewrite H. reflexivity.
Qed.

(** What the handler does before it calls the core, and that it calls it
    only on arguments it could read. *)
Lemma api_validation data tr :
  (truthy data = false /\
   calculate_similarity_api data tr =
     (Val (jsonify_error "Invalid request. Must be JSON.", 400), tr)) \/
  (truthy data = true /\ exists e,
     all_in required_fields data = Raise e /\
     calculate_similarity_api data tr = (Raise e, tr)) \/
  (truthy data = true /\ all_in required_fields data = Val false /\
   calculate_similarity_api data tr =
     (Val (jsonify_error
             "Missing one or more required fields: ['lat', 'lng', 'date_str']", 400), tr)) \/
  (truthy data = true /\ all_in required_fields data = Val true /\ exists e,
     read_arguments data = Raise e /\
     is_ValueError_or_TypeError (exc_cls e) = true /\
     calculate_similarity_api data tr =
       (Val (jsonify_error ("Invalid data type for parameters. " +:+ exc_msg e), 400), tr)) \/
  (truthy data = true /\ all_in required_fields data = Val true /\ exists e,
     read_arguments data = Raise e /\
     is_ValueError_or_TypeError (exc_cls e) = false /\
     calculate_similarity_api data tr = (Raise e, tr)) \/
  (truthy data = true /\ all_in required_fields data = Val true /\
   exists lat lng date_str threshold,
     read_arguments data = Val (lat, lng, date_str, threshold) /\
     calculate_similarity_api data tr =
       bind (get_nasa_similarity_for_location lat lng date_str threshold)
            (fun r => ret (interpret threshold r)) tr).
Proof.
  unfold calculate_similarity_api.
  destruct (truthy data); cbn [negb]; cbv iota; [| left; auto].
  right. unfold bind at 1, eval at 1.
  destruct (all_in required_fields data) as [[|] | e]; cbn [negb]; cbv iota.
  - right. right. unfold try_except, eval.
    destruct (read_arguments data) as [[[[lat lng] date_str] threshold] | e].
    + right. right. split; [reflexivity|]. split; [reflexivity|].
      exists lat, lng, date_str, threshold. auto.
    + destruct (is_ValueError_or_TypeError (exc_cls e)) eqn:Hc.
      * left. split; [reflexivity|]. split; [reflexivity|]. exists e. auto.
      * right. left. split; [reflexivity|]. split; [reflexivity|]. exists e. auto.
  - right. left. auto.
  - left. split; [reflexivity|]. exists e. auto.
Qed.

(** The handler after the core: the outcome and the events of a path. *)
Lemma api_after_core lat lng date_str threshold tr :
  exists o evs,
    core_path lat lng date_str threshold tr o evs /\
    bind (get_nasa_similarity_for_location lat lng date_str threshold)
         (fun r => ret (interpret threshold r)) tr =
      (match o with Val r => Val (interpret threshold r) | Raise e => Raise e end,
       tr ++ evs).
Proof.
  destruct (compare_run lat lng date_str threshold tr) as (evs & Hp & Htr).
  exists (fst (get_nasa_similarity_for_location lat lng date_str threshold tr)), evs.
  split; [exact Hp|]. unfold bind, ret.
  destruct (get_nasa_similarity_for_location lat lng date_str threshold tr) as [[r | e] tr1];
    simpl in *; rewrite Htr; reflexivity.
Qed.

(** A path that returns, returns a pair with exactly one component. *)
Lemma core_path_exactly_one lat lng date_str threshold tr r evs :
  core_path lat lng date_str threshold tr (Val r) evs -> exactly_one r.
Proof. intros Hp. inversion Hp; subst; simpl; auto; discriminate. Qed.

Lemma jsonify_error_inj (a b : string) : jsonify_error a = jsonify_error b -> a = b.
Proof.
  unfold jsonify_error. intros H.
  apply (f_equal (fun j => match j with JObj m => m !! "error" | _ => None end)) in H.
  cbv beta iota in H. rewrite !lookup_singleton_eq in H. congruence.
Qed.

Lemma interpret_exactly_one threshold r :
  exactly_one r ->
  (exists score, r = (Some score, None) /\
     interpret threshold r =
       (JObj (list_to_map
          [ ("status", JStr (status_of score threshold));
            ("message", JStr (message_of score threshold));
            ("similarity_score", JFloat score);
            ("threshold_used", JFloat threshold) ]), 200)) \/
  (exists msg, msg <> EmptyString /\ r = (None, Some msg) /\
     interpret threshold r = (jsonify_error msg, 502)).
Proof.
  destruct r as [[score|] [msg|]]; intros Hm; simpl in Hm; try contradiction.
  - left. exists score. split; [reflexivity | apply interpret_score].
  - right. exists msg. split; [exact Hm|]. split; [reflexivity|].
    exact (interpret_error threshold msg Hm).
Qed.

(** What the handler answers after it called the core: 200 or 502, or the
    exception of the core. *)
Lemma api_core_answer lat lng date_str threshold tr o' tr' :
  bind (get_nasa_similarity_for_location lat lng date_str threshold)
       (fun r => ret (interpret threshold r)) tr = (o', tr') ->
  exists o evs,
    core_path lat lng date_str threshold tr o evs /\ tr' = tr ++ evs /\
    match o with
    | Val r => exactly_one r /\ o' = Val (interpret threshold r)
    | Raise e => o' = Raise e
    end.
Proof.
  destruct (api_after_core lat lng date_str threshold tr) as (o & evs & Hp & Hb).
  rewrite Hb. intros [= <- <-]. exists o, evs. split; [exact Hp|]. split; [reflexivity|].
  destruct o as [r | e]; [|reflexivity].
  split; [eapply core_path_exactly_one; eassumption | reflexivity].
Qed.

Lemma answer_inj (b1 b2 : json) (c1 c2 : Z) (t1 t2 : trace) :
  (Val (b1, c1), t1) = (Val (b2, c2), t2) -> b1 = b2 /\ c1 = c2 /\ t1 = t2.
Proof. intros [= -> -> ->]. auto. Qed.


Lemma JObj_inj (a b : gmap string json) : JObj a = JObj b -> a = b.
Proof. intros [= ->]. reflexivity. Qed.

Lemma truthy_false (data : json) :
  truthy data = false <->
  data = JNull \/ data = JBool false \/ data = JInt 0 \/
  (exists f, data = JFloat f /\ (f =? 0)%float = true) \/
  data = JStr EmptyString \/ data = JArr [] \/ data = JObj ∅.
Proof.
  split.
  - destruct data as [| b | z | f | s | l | m]; simpl; intros H.
    + auto.
    + subst b. auto.
    + apply negb_false_iff, Z.eqb_eq in H. subst z. auto 10.
    + apply negb_false_iff in H. right. right. right. left. eauto.
    + apply negb_false_iff, String.eqb_eq in H. subst s. auto 10.
    + destruct l; [auto 10 | discriminate].
    + apply negb_false_iff, bool_decide_eq_true in H. subst m. auto 10.
  - intros [-> | [-> | [-> | [(f & -> & Hf) | [-> | [-> | ->]]]]]]; simpl;
      try reflexivity.
    rewrite Hf. reflexivity.
Qed.

(** * Further properties of the handler *)

(** X1.  A 400 answer is given before the core is called: the handler has
    then performed no event at all, neither a request nor a log record, and
    the body is an error object. *)
Theorem bad_request_costs_nothing data tr body tr' :
  calculate_similarity_api data tr = (Val (body, 400), tr') ->
  tr' = tr /\ exists msg, body = jsonify_error msg.
Proof.
  intros Ha.
  destruct (api_validation data tr)
    as [[_ H] | [(_ & e & _ & H) | [(_ & _ & H) | [(_ & _ & e & _ & _ & H)
       | [(_ & _ & e & _ & _ & H) | (_ & _ & lat & lng & ds & th & _ & H)]]]]];
    rewrite H in Ha.
  - apply answer_inj in Ha as (<- & _ & <-). eauto.
  - discriminate.
  - apply answer_inj in Ha as (<- & _ & <-). eauto.
  - apply answer_inj in Ha as (<- & _ & <-). eauto.
  - discriminate.
  - destruct (api_core_answer _ _ _ _ _ _ _ Ha) as (o & evs & _ & _ & Ho).
    destruct o as [r | e]; [|discriminate].
    destruct Ho as [Hr Ho].
    destruct (interpret_exactly_one th r Hr) as [(score & _ & Hi) | (msg & _ & _ & Hi)];
      rewrite Hi in Ho; discriminate.
Qed.

(** X2.  The answer 400 "Invalid request. Must be JSON." is given exactly to
    the bodies Python holds false: null, false, 0, 0.0, the empty string, the
    empty array and the empty object. *)
Theorem falsy_body_is_refused data tr :
  calculate_similarity_api data tr =
    (Val (jsonify_error "Invalid request. Must be JSON.", 400), tr) <->
  data = JNull \/ data = JBool false \/ data = JInt 0 \/
  (exists f, data = JFloat f /\ (f =? 0)%float = true) \/
  data = JStr EmptyString \/ data = JArr [] \/ data = JObj ∅.
Proof.
  rewrite <- truthy_false. split.
  - intros Ha.
    destruct (api_validation data tr)
      as [[Ht _] | [(_ & e & _ & H) | [(_ & _ & H) | [(_ & _ & e & _ & _ & H)
         | [(_ & _ & e & _ & _ & H) | (_ & _ & lat & lng & ds & th & _ & H)]]]]];
      [exact Ht | rewrite H in Ha ..].
    + discriminate.
    + apply answer_inj in Ha as [Hb _]. apply jsonify_error_inj in Hb. discriminate.
    + apply answer_inj in Ha as [Hb _]. apply jsonify_error_inj in Hb.
      simpl in Hb. discriminate.
    + discriminate.
    + destruct (api_core_answer _ _ _ _ _ _ _ Ha) as (o & evs & _ & _ & Ho).
      destruct o as [r | e]; [|discriminate].
      destruct Ho as [Hr Ho].
      destruct (interpret_exactly_one th r Hr) as [(score & _ & Hi) | (msg & _ & _ & Hi)];
        rewrite Hi in Ho; discriminate.
  - intros Ht. unfold calculate_similarity_api. rewrite Ht. reflexivity.
Qed.

(** X3.  An object that lacks [lat], [lng] or [date_str] is answered 400 with
    the list of the required fields, without any event. *)
Theorem missing_field_is_refused (m : gmap string json) tr :
  m <> ∅ ->
  m !! "lat" = None \/ m !! "lng" = None \/ m !! "date_str" = None ->
  calculate_similarity_api (JObj m) tr =
    (Val (jsonify_error
            "Missing one or more required fields: ['lat', 'lng', 'date_str']", 400), tr).
Proof.
  intros Hne Hmiss.
  assert (Ht : truthy (JObj m) = true).
  { simpl. rewrite bool_decide_eq_false_2 by exact Hne. reflexivity. }
  assert (Hall : all_in required_fields (JObj m) = Val false).
  { simpl.
    destruct (m !! "lat") as [x|] eqn:Hlat.
    2:{ rewrite bool_decide_eq_false_2; [reflexivity | intros [? ?]; discriminate]. }
    rewrite bool_decide_eq_true_2 by eauto.
    destruct (m !! "lng") as [y|] eqn:Hlng.
    2:{ rewrite bool_decide_eq_false_2; [reflexivity | intros [? ?]; discriminate]. }
    rewrite bool_decide_eq_true_2 by eauto.
    destruct (m !! "date_str") as [z|] eqn:Hds.
    2:{ rewrite bool_decide_eq_false_2; [reflexivity | intros [? ?]; discriminate]. }
    destruct Hmiss as [H | [H | H]]; discriminate. }
  unfold calculate_similarity_api. rewrite Ht. cbn [negb]; cbv iota.
  unfold bind, eval. rewrite Hall. reflexivity.
Qed.

(** X4.  When [float()] refuses [lat], [lng] or [threshold] with a ValueError
    or a TypeError (a null, an array, an object, a text that is no number), the
    answer is 400 with the text of the exception, without any event. *)
Theorem unconvertible_argument_is_refused (m : gmap string json) e tr :
  conversion_failure m e ->
  exc_cls e = ValueError \/ exc_cls e = TypeError ->
  calculate_similarity_api (JObj m) tr =
    (Val (jsonify_error ("Invalid data type for parameters. " +:+ exc_msg e), 400), tr).
Proof.
  intros Hf Hc. destruct (conversion_failure_read m e Hf) as (Ht & Hall & Hr).
  unfold calculate_similarity_api. rewrite Ht. cbn [negb]; cbv iota.
  unfold bind at 1, eval at 1. rewrite Hall. cbn [negb]; cbv iota.
  unfold try_except, eval. rewrite Hr.
  assert (Hcatch : is_ValueError_or_TypeError (exc_cls e) = true)
    by (destruct Hc as [-> | ->]; reflexivity).
  rewrite Hcatch. reflexivity.
Qed.

(** X5.  The handler catches ValueError and TypeError only: when [float()]
    refuses an argument with an OverflowError (an int too large), the
    exception leaves the handler, without any event. *)
Theorem overflowing_argument_escapes (m : gmap string json) e tr :
  conversion_failure m e ->
  exc_cls e = OverflowError ->
  calculate_similarity_api (JObj m) tr = (Raise e, tr).
Proof.
  intros Hf Hc. destruct (conversion_failure_read m e Hf) as (Ht & Hall & Hr).
  unfold calculate_similarity_api. rewrite Ht. cbn [negb]; cbv iota.
  unfold bind at 1, eval at 1. rewrite Hall. cbn [negb]; cbv iota.
  unfold try_except, eval. rewrite Hr, Hc. reflexivity.
Qed.

(** X6.  A body that is not an object never reaches the core: a non-empty
    array or text is answered 400, and a number or [true] makes the
    membership test of line 115 raise a TypeError that leaves the handler. *)
Theorem body_that_is_no_object data tr :
  truthy data = true ->
  match data with
  | JObj _ => True
  | JArr _ | JStr _ =>
      exists msg, calculate_similarity_api data tr = (Val (jsonify_error msg, 400), tr)
  | _ =>
      calculate_similarity_api data tr =
        (Raise (Exc TypeError
                  ("argument of type '" +:+ type_name data +:+ "' is not iterable")), tr)
  end.
Proof.
  intros Ht.
  assert (Hseq : (exists l, data = JArr l) \/ (exists s, data = JStr s) ->
                 exists msg,
                   calculate_similarity_api data tr = (Val (jsonify_error msg, 400), tr)).
  { intros Hd. unfold calculate_similarity_api. rewrite Ht. cbn [negb]; cbv iota.
    unfold bind at 1, eval at 1.
    destruct (all_in required_fields data) as [[|] | e] eqn:Hall; cbn [negb]; cbv iota.
    - unfold try_except, eval.
      destruct Hd as [[l ->] | [s ->]]; unfold read_arguments; simpl; eauto.
    - eauto.
    - destruct Hd as [[l ->] | [s ->]]; simpl in Hall;
        repeat match type of Hall with
               | context [if ?b then _ else _] => destruct b
               | context [match ?o with Some _ => _ | None => _ end] => destruct o
               end; discriminate. }
  destruct data as [| b | z | f | s | l | m]; eauto; try discriminate;
    unfold calculate_similarity_api; rewrite Ht; reflexivity.
Qed.

(** X7.  The handler does not check that [date_str] is a text: with a number,
    a boolean, a null, an array or an object in its place, [strptime] raises a
    TypeError that names what it got (its type, and None for a null), which
    the core does not catch and which leaves the handler before any event. *)
Theorem date_that_is_no_text_raises data lat lng date_str threshold tr :
  well_formed_body data lat lng date_str threshold ->
  (forall s, date_str <> JStr s) ->
  calculate_similarity_api data tr =
    (Raise (Exc TypeError
              ("strptime() argument 1 must be str, not " +:+ argument_name date_str)), tr).
Proof.
  intros Hw Hn. rewrite (api_well_formed _ _ _ _ _ _ Hw).
  unfold bind, get_nasa_similarity_for_location, try_except, eval.
  destruct date_str as [| b | z | f | s | l | m]; try reflexivity.
  exfalso. exact (Hn s eq_refl).
Qed.

(** * Further properties of the core *)

Lemma compare_no_week_before lat lng s threshold tr d :
  parse_date s = Some d -> minus_days 7 d = None ->
  get_nasa_similarity_for_location lat lng (JStr s) threshold tr =
    (Raise (Exc OverflowError "date value out of range"), tr).
Proof.
  intros Hp H7. run_core. rewrite Hp. unfold sub_days. rewrite H7. reflexivity.
Qed.

Lemma compare_no_two_weeks_before lat lng s threshold tr d d7 vec1 score :
  initial_comparison lat lng s tr d d7 vec1 score ->
  (score <? threshold)%float = true ->
  minus_days 14 d = None ->
  get_nasa_similarity_for_location lat lng (JStr s) threshold tr =
    (Raise (Exc OverflowError "date value out of range"),
     tr ++ week_events lat lng s d7 ++ [fallback_log score threshold]).
Proof.
  intros (Hp & H7 & buf1 & buf2 & vec2 & Hf1 & Hf2 &
          (img1 & res1 & Hr1 & Hz1 & ->) & (img2 & res2 & Hr2 & Hz2 & ->) & Hc) Hlt H14.
  run_core. rewrite Hp. unfold sub_days at 1. rewrite H7.
  rewrite (fetch_image_succeeds _ _ _ _ _ Hf1), (fetch_image_succeeds _ _ _ _ _ Hf2).
  simpl fst; simpl snd. rewrite Hr1, Hr2, Hz1, Hz2, Hc, Hlt.
  unfold sub_days. rewrite H14. rewrite <- !app_assoc. reflexivity.
Qed.

(** X8.  On a text that parses, the core raises OverflowError before any
    event exactly when the date falls in the first seven days of the year 1,
    where the date a week before does not exist. *)
Theorem first_week_of_year_one lat lng s threshold tr d :
  parse_date s = Some d ->
  (get_nasa_similarity_for_location lat lng (JStr s) threshold tr =
     (Raise (Exc OverflowError "date value out of range"), tr)
   <-> year d = 1 /\ month d = 1 /\ day d <= 7).
Proof.
  intros Hp. pose proof (parse_date_valid s d Hp) as Hv.
  rewrite <- (minus_days_none 7 d Hv) by lia. split.
  - intros Hc.
    destruct (minus_days 7 d) as [d7|] eqn:H7; [|reflexivity]. exfalso.
    destruct (compare_run lat lng (JStr s) threshold tr) as (evs & Hpath & Htr).
    rewrite Hc in Hpath, Htr. simpl in Hpath, Htr.
    assert (evs = []) as ->.
    { apply (app_inv_head tr). rewrite <- Htr. symmetry. apply app_nil_r. }
    inversion Hpath; subst;
      repeat match goal with
             | H : JStr _ = JStr _ |- _ => injection H as <-
             end;
      try congruence;
      match goal with
      | H : forall s0, JStr _ <> JStr s0 |- _ => exact (H _ eq_refl)
      | H : [] = ?l ++ _ |- _ => destruct l; discriminate
      end.
  - intros H7. exact (compare_no_week_before _ _ _ _ _ _ Hp H7).
Qed.

(** X9.  When the week-prior score is below the threshold and the date falls
    in the first fourteen days of the year 1, the core raises OverflowError
    after its two requests and the record of the fallback: the date two weeks
    before does not exist. *)
Theorem second_week_of_year_one lat lng s threshold tr d d7 vec1 score :
  initial_comparison lat lng s tr d d7 vec1 score ->
  (score <? threshold)%float = true ->
  year d = 1 /\ month d = 1 /\ day d <= 14 ->
  get_nasa_similarity_for_location lat lng (JStr s) threshold tr =
    (Raise (Exc OverflowError "date value out of range"),
     tr ++ week_events lat lng s d7 ++ [fallback_log score threshold]).
Proof.
  intros Hi Hlt Hd.
  apply (compare_no_two_weeks_before _ _ _ _ _ d d7 vec1 score Hi Hlt).
  destruct Hi as (Hp & _). pose proof (parse_date_valid s d Hp) as Hv.
  apply (minus_days_none 14 d Hv); [lia | exact Hd].
Qed.

(** X10.  Every reference date the core computes from an accepted text is a
    valid calendar date.  From the year 1000 on, the TIME it sends for it has
    the ten characters of YYYY-MM-DD and parses back to that date; before,
    the year is written without its leading zeros, the text is shorter, and
    [strptime] refuses it. *)
Theorem reference_dates_round_trip_from_1000 s d n d' :
  parse_date s = Some d ->
  minus_days n d = Some d' ->
  valid_date d' = true /\
  parse_date (strftime d') = (if 1000 <=? year d' then Some d' else None) /\
  (String.length (strftime d') = 10%nat <-> 1000 <= year d').
Proof.
  intros Hp Hn.
  pose proof (minus_days_valid n d d' (parse_date_valid s d Hp) Hn) as Hv.
  split; [exact Hv|]. split.
  - destruct (1000 <=? year d') eqn:Hy.
    + apply parse_strftime; [exact Hv | lia].
    + apply parse_strftime_short; [exact Hv | lia].
  - pose proof (strftime_length d') as Hl. unfold missing_zeros in Hl.
    destruct (year d' <? 10) eqn:H1; [simpl in Hl; lia |].
    destruct (year d' <? 100) eqn:H2; [simpl in Hl; lia |].
    destruct (year d' <? 1000) eqn:H3; simpl in Hl; lia.
Qed.

(** X11.  The three requests of an invocation that reaches the fallback carry
    three different TIME values: the date a week before and the date two
    weeks before are strictly earlier dates, the second seven days before the
    first. *)
Theorem reference_times_are_distinct s d d7 d14 :
  parse_date s = Some d ->
  minus_days 7 d = Some d7 ->
  minus_days 14 d = Some d14 ->
  minus_days 7 d7 = Some d14 /\
  s <> strftime d7 /\ s <> strftime d14 /\ strftime d7 <> strftime d14.
Proof.
  intros Hp H7 H14.
  pose proof (parse_date_valid s d Hp) as Hv.
  pose proof (minus_days_valid 7 d d7 Hv H7) as Hv7.
  pose proof (minus_days_valid 14 d d14 Hv H14) as Hv14.
  assert (H77 : minus_days 7 d7 = Some d14).
  { change 14%nat with (7 + 7)%nat in H14. rewrite minus_days_add, H7 in H14. exact H14. }
  destruct (minus_days_key 7 d d7 Hv H7) as [_ Hk7]. specialize (Hk7 ltac:(lia)).
  destruct (minus_days_key 14 d d14 Hv H14) as [_ Hk14]. specialize (Hk14 ltac:(lia)).
  destruct (minus_days_key 7 d7 d14 Hv7 H77) as [_ Hk77]. specialize (Hk77 ltac:(lia)).
  split; [exact H77|]. repeat split.
  - intros ->. pose proof (parse_strftime_same d7 d Hv7 Hp). subst d. lia.
  - intros ->. pose proof (parse_strftime_same d14 d Hv14 Hp). subst d. lia.
  - intros He. pose proof (strftime_inj d7 d14 Hv7 Hv14 He). subst d14. lia.
Qed.

(** The events of a path: requests for this coordinate and log records, with
    at most three requests. *)
Lemma core_path_events lat lng date_str threshold tr o evs :
  core_path lat lng date_str threshold tr o evs ->
  Forall (core_event lat lng) evs /\ (length (requests_made evs) <= 3)%nat.
Proof.
  assert (Hr : forall t, core_event lat lng (request_for lat lng t))
    by (intros t; split; [reflexivity | eauto]).
  intros Hp. destruct Hp;
    try match goal with
        | H : initial_fetch_failure _ _ _ _ _ _ _ |- _ =>
            destruct H as [[_ ->] | (? & _ & _ & ->)]
        end;
    (split; [ unfold week_events; simpl app;
              repeat (apply Forall_cons_2; [first [apply Hr | exact I] |]);
              apply Forall_nil_2
            | simpl; lia ]).
Qed.

(** X12.  When the core returns an error it has logged it, as its last event:
    either the date message after no request at all, or the fetch message,
    which carries the text of the failure, after the one or two requests of
    the initial phase. *)
Theorem core_errors_are_logged lat lng date_str threshold tr msg evs :
  get_nasa_similarity_for_location lat lng date_str threshold tr =
    (Val (None, Some msg), tr ++ evs) ->
  (msg = "Invalid date format. Please use YYYY-MM-DD." /\
   exists txt, evs = [EvLog ERROR txt]) \/
  (exists cause reqs,
     msg = "Could not retrieve images from NASA. Error: " +:+ cause /\
     evs = reqs ++
       [EvLog ERROR ("Failed to fetch initial images from NASA GIBS: " +:+ cause)] /\
     (exists t, reqs = [request_for lat lng t] \/
        exists t', reqs = [request_for lat lng t; request_for lat lng t'])).
Proof.
  intros Hc.
  destruct (compare_run lat lng date_str threshold tr) as (evs' & Hpath & Htr).
  rewrite Hc in Hpath, Htr. simpl in Hpath, Htr.
  apply app_inv_head in Htr. subst evs'.
  inversion Hpath; subst.
  - left. eauto.
  - right.
    match goal with
    | H : initial_fetch_failure _ _ _ _ _ ?m ?l |- _ =>
        exists m, l; split; [reflexivity | split; [reflexivity |]];
        destruct H as [[_ ->] | (? & _ & _ & ->)]
    end.
    + eexists. left. reflexivity.
    + eexists. right. eexists. reflexivity.
Qed.

(** X13.  The answer SIGNIFICANT_CHANGE_DETECTED is only given after the
    fallback was tried: the invocation has then sent exactly three requests. *)
Theorem significant_change_needs_the_fallback data tr (body : gmap string json) evs :
  calculate_similarity_api data tr = (Val (JObj body, 200), tr ++ evs) ->
  body !! "status" = Some (JStr "SIGNIFICANT_CHANGE_DETECTED") ->
  length (requests_made evs) = 3%nat.
Proof.
  intros Ha Hst.
  destruct (api_validation data tr)
    as [[_ H] | [(_ & e & _ & H) | [(_ & _ & H) | [(_ & _ & e & _ & _ & H)
       | [(_ & _ & e & _ & _ & H) | (_ & _ & lat & lng & ds & th & _ & H)]]]]];
    rewrite H in Ha;
    try discriminate;
    try (apply answer_inj in Ha as (_ & Hcode & _); discriminate).
  destruct (api_core_answer _ _ _ _ _ _ _ Ha) as (o & evs' & Hpath & Htr & Ho).
  apply app_inv_head in Htr. subst evs'.
  destruct o as [r | e]; [|discriminate].
  destruct Ho as [Hr Ho].
  destruct (interpret_exactly_one th r Hr) as [(score & -> & Hi) | (m & _ & _ & Hi)];
    rewrite Hi in Ho; [| discriminate].
  assert (Hb : (Val (JObj body, 200), tr) = (Val (JObj (list_to_map
            [ ("status", JStr (status_of score th));
              ("message", JStr (message_of score th));
              ("similarity_score", JFloat score);
              ("threshold_used", JFloat th) ]), 200), tr)) by (rewrite Ho; reflexivity).
  apply answer_inj in Hb as (Hb & _ & _). apply JObj_inj in Hb. subst body.
  destruct (score_body_lookup th score) as [Hs _]. rewrite Hs in Hst.
  injection Hst as Hst.
  inversion Hpath; subst; try reflexivity.
  exfalso. unfold status_of in Hst.
  match goal with H : (score <? th)%float = false |- _ => rewrite H in Hst end.
  destruct (score =? 1)%float; discriminate.
Qed.

(** X14.  A threshold that is not a number (NaN) disables the fallback: no
    score is below it, so the core sends at most two requests and the status
    of a returned score is never SIGNIFICANT_CHANGE_DETECTED. *)
Theorem nan_threshold_disables_fallback lat lng date_str threshold tr :
  (threshold =? threshold)%float = false ->
  exists evs,
    snd (get_nasa_similarity_for_location lat lng date_str threshold tr) = tr ++ evs /\
    (length (requests_made evs) <= 2)%nat /\
    forall score error,
      fst (get_nasa_similarity_for_location lat lng date_str threshold tr)
        = Val (Some score, error) ->
      status_of score threshold <> "SIGNIFICANT_CHANGE_DETECTED".
Proof.
  intros Hnan.
  destruct (compare_run lat lng date_str threshold tr) as (evs & Hpath & Htr).
  exists evs. split; [exact Htr|]. split.
  - destruct Hpath;
      try match goal with
          | H : (_ <? threshold)%float = true |- _ =>
              rewrite (float_ltb_nan _ threshold Hnan) in H; discriminate
          | H : initial_fetch_failure _ _ _ _ _ _ _ |- _ =>
              destruct H as [[_ ->] | (? & _ & _ & ->)]
          end; simpl; lia.
  - intros score error _. unfold status_of.
    rewrite (float_ltb_nan score threshold Hnan).
    destruct (score =? 1)%float; discriminate.
Qed.

(** X15.  Whatever the body and whatever the network does, an invocation of
    the handler keeps the events before it, sends at most three requests, and
    sends them to the map service only. *)
Theorem endpoint_sends_at_most_three_requests data tr :
  exists evs,
    snd (calculate_similarity_api data tr) = tr ++ evs /\
    (length (requests_made evs) <= 3)%nat /\
    forall u p, (u, p) ∈ requests_made evs -> u = nasa_base_url.
Proof.
  assert (Hnone : forall o, calculate_similarity_api data tr = (o, tr) ->
            exists evs,
              snd (calculate_similarity_api data tr) = tr ++ evs /\
              (length (requests_made evs) <= 3)%nat /\
              forall u p, (u, p) ∈ requests_made evs -> u = nasa_base_url).
  { intros o Ho. exists []. rewrite Ho. simpl. rewrite app_nil_r.
    split; [reflexivity|]. split; [lia|].
    intros u p Hin. apply elem_of_nil in Hin. contradiction. }
  destruct (api_validation data tr)
    as [[_ H] | [(_ & e & _ & H) | [(_ & _ & H) | [(_ & _ & e & _ & _ & H)
       | [(_ & _ & e & _ & _ & H) | (_ & _ & lat & lng & ds & th & _ & H)]]]]];
    try (eapply Hnone; exact H).
  destruct (api_after_core lat lng ds th tr) as (o & evs & Hpath & Hb).
  destruct (core_path_events _ _ _ _ _ _ _ Hpath) as [Hall Hlen].
  exists evs. rewrite H, Hb. split; [reflexivity|]. split; [exact Hlen|].
  intros u p Hin. unfold requests_made in Hin.
  apply list_elem_of_omap in Hin as (ev & Hev & Hsome).
  rewrite Forall_forall in Hall. specialize (Hall ev Hev).
  destruct ev as [u' p' | lvl txt]; [|discriminate].
  injection Hsome as -> ->. destruct Hall as [-> _]. reflexivity.
Qed.


End Extras.

(** * The further properties on the test double *)

Section MoreWitnesses.
Import Double.

(** A body without [lng]. *)
Definition body_without_lng : gmap string json :=
  list_to_map [("lat", JFloat lat0); ("date_str", JStr "2023-08-15")].

(** A body whose [lat] is [v] and whose [date_str] is [d]. *)
Definition body_of (v d : json) : gmap string json :=
  list_to_map [("lat", v); ("lng", JFloat lng0); ("date_str", d)].

(** The map service for a target date in the second week of the year 1. *)
Definition net_year_one (t : string) : reply :=
  if String.eqb t "0001-01-10" then ok target_image
  else if String.eqb t "1-01-03" then ok week_image_far
  else NoReply "Connection timed out".

Lemma missing_lng_answer :
  calculate_similarity_api (E := env net_steady) (JObj body_without_lng) []
  = (Val (jsonify_error
            "Missing one or more required fields: ['lat', 'lng', 'date_str']", 400), []).
Proof. vm_compute. reflexivity. Qed.

Lemma bad_request_costs_nothing_witness :
  ([] : trace) = [] /\
  exists msg,
    jsonify_error "Missing one or more required fields: ['lat', 'lng', 'date_str']"
      = jsonify_error msg.
Proof.
  exact (bad_request_costs_nothing (E := env net_steady) (JObj body_without_lng) []
           _ [] missing_lng_answer).
Defined.

Lemma missing_field_is_refused_witness :
  calculate_similarity_api (E := env net_steady) (JObj body_without_lng) []
  = (Val (jsonify_error
            "Missing one or more required fields: ['lat', 'lng', 'date_str']", 400), []).
Proof.
  apply (missing_field_is_refused (E := env net_steady) body_without_lng []).
  - intros H. apply (f_equal (fun m => m !! "lat")) in H. vm_compute in H. discriminate.
  - right. left. reflexivity.
Defined.

Lemma unconvertible_argument_is_refused_witness :
  calculate_similarity_api (E := env net_steady)
    (JObj (body_of JNull (JStr "2023-08-15"))) []
  = (Val (jsonify_error
            "Invalid data type for parameters. float() argument must be a string or a real number, not 'NoneType'",
          400), []).
Proof.
  apply (unconvertible_argument_is_refused (E := env net_steady)
           (body_of JNull (JStr "2023-08-15"))
           (Exc TypeError
              "float() argument must be a string or a real number, not 'NoneType'") []).
  - exists JNull, (JFloat lng0), (JStr "2023-08-15").
    split; [reflexivity|]. split; [reflexivity|]. split; [reflexivity|].
    left. reflexivity.
  - right. reflexivity.
Defined.

Lemma overflowing_argument_escapes_witness :
  calculate_similarity_api (E := env net_steady)
    (JObj (body_of (JInt (10 ^ 400)) (JStr "2023-08-15"))) []
  = (Raise (Exc OverflowError "int too large to convert to float"), []).
Proof.
  apply (overflowing_argument_escapes (E := env net_steady)
           (body_of (JInt (10 ^ 400)) (JStr "2023-08-15"))
           (Exc OverflowError "int too large to convert to float") []).
  - exists (JInt (10 ^ 400)), (JFloat lng0), (JStr "2023-08-15").
    split; [reflexivity|]. split; [reflexivity|]. split; [reflexivity|].
    left. vm_compute. reflexivity.
  - reflexivity.
Defined.

Lemma body_that_is_no_object_witness :
  exists msg,
    calculate_similarity_api (E := env net_steady)
      (JArr [JStr "lat"; JStr "lng"; JStr "date_str"]) []
    = (Val (jsonify_error msg, 400), []).
Proof.
  exact (body_that_is_no_object (E := env net_steady)
           (JArr [JStr "lat"; JStr "lng"; JStr "date_str"]) [] eq_refl).
Defined.



Lemma requests_carry_the_bounding_box_witness :
  let box :=
    String.concat ","
      [ py_str (E := env net_steady) (JFloat (lng0 - 0.5)%float);
        py_str (E := env net_steady) (JFloat (lat0 - 0.5)%float);
        py_str (E := env net_steady) (JFloat (lng0 + 0.5)%float);
        py_str (E := env net_steady) (JFloat (lat0 + 0.5)%float) ] in
  exists p1 p2 evs,
    snd (get_nasa_similarity_for_location (E := env net_steady)
           lat0 lng0 (JStr "2023-08-15") 0.75%float [])
      = EvGet nasa_base_url p1 :: EvGet nasa_base_url p2 :: evs /\
    p1 !! "TIME" = Some "2023-08-15" /\
    p2 !! "TIME" = Some "2023-08-08" /\
    p1 !! "BBOX" = Some box /\ p2 !! "BBOX" = Some box /\
    p1 !! "WIDTH" = Some "1024" /\ p1 !! "HEIGHT" = Some "1024" /\
    p2 !! "WIDTH" = Some "1024" /\ p2 !! "HEIGHT" = Some "1024".
Proof.
  intros box.
  destruct (requests_carry_the_bounding_box (E := env net_steady)
              lat0 lng0 "2023-08-15" 0.75%float [] (Date 2023 8 15) (Date 2023 8 8)
              eq_refl eq_refl)
    as (p1 & evs & Htr & Ht1 & (Hb1 & Hw1 & Hh1) & Hnext & _).
  destruct (Hnext (Response 200 "OK" "https://gibs.earthdata.nasa.gov/" target_image))
    as (p2 & evs' & -> & Ht2 & (Hb2 & Hw2 & Hh2) & _).
  - simpl. rewrite Ht1. reflexivity.
  - left. simpl. lia.
  - exists p1, p2, evs'. repeat split; assumption.
Defined.

Lemma date_that_is_no_text_raises_witness :
  calculate_similarity_api (E := env net_steady)
    (JObj (body_of (JFloat lat0) JNull)) []
  = (Raise (Exc TypeError "strptime() argument 1 must be str, not None"), []).
Proof.
  apply (date_that_is_no_text_raises (E := env net_steady)
           (JObj (body_of (JFloat lat0) JNull))
           lat0 lng0 JNull 0.75%float []).
  - exists (body_of (JFloat lat0) JNull), (JFloat lat0), (JFloat lng0).
    split; [reflexivity | repeat split; reflexivity].
  - discriminate.
Defined.

Lemma first_week_of_year_one_witness :
  get_nasa_similarity_for_location (E := env net_steady)
    lat0 lng0 (JStr "0001-01-03") 0.75%float []
  = (Raise (Exc OverflowError "date value out of range"), []).
Proof.
  apply (first_week_of_year_one (E := env net_steady)
           lat0 lng0 "0001-01-03" 0.75%float [] (Date 1 1 3) eq_refl).
  simpl. lia.
Defined.

Lemma second_week_of_year_one_witness :
  fst (get_nasa_similarity_for_location (E := env net_year_one)
         lat0 lng0 (JStr "0001-01-10") 0.75%float [])
  = Raise (Exc OverflowError "date value out of range") /\
  length (requests_made
            (snd (get_nasa_similarity_for_location (E := env net_year_one)
                    lat0 lng0 (JStr "0001-01-10") 0.75%float []))) = 2%nat.
Proof.
  rewrite (second_week_of_year_one (E := env net_year_one)
             lat0 lng0 "0001-01-10" 0.75%float [] (Date 1 1 10) (Date 1 1 3) vec0
             (cosine vec0 (map pixel week_image_far))).
  - split; reflexivity.
  - split; [reflexivity|]. split; [reflexivity|].
    exists target_image, week_image_far, (map pixel week_image_far).
    repeat split.
    + exists (Response 200 "OK" "https://gibs.earthdata.nasa.gov/" target_image).
      split; [reflexivity | split; [left; reflexivity | reflexivity]].
    + exists (Response 200 "OK" "https://gibs.earthdata.nasa.gov/" week_image_far).
      split; [reflexivity | split; [left; reflexivity | reflexivity]].
    + eexists; eexists; split; [reflexivity | split; reflexivity].
    + eexists; eexists; split; [reflexivity | split; reflexivity].
  - reflexivity.
  - simpl. lia.
Defined.

Lemma reference_dates_round_trip_from_1000_witness :
  valid_date (Date 998 12 29) = true /\
  parse_date (strftime (Date 998 12 29)) = None /\
  (String.length (strftime (Date 998 12 29)) = 10%nat <-> 1000 <= 998).
Proof.
  exact (reference_dates_round_trip_from_1000 "0999-01-05" (Date 999 1 5) 7 (Date 998 12 29)
           eq_refl eq_refl).
Defined.

Lemma reference_times_are_distinct_witness :
  minus_days 7 (Date 2023 12 29) = Some (Date 2023 12 22) /\
  "2024-1-5" <> strftime (Date 2023 12 29) /\
  "2024-1-5" <> strftime (Date 2023 12 22) /\
  strftime (Date 2023 12 29) <> strftime (Date 2023 12 22).
Proof.
  exact (reference_times_are_distinct "2024-1-5" (Date 2024 1 5)
           (Date 2023 12 29) (Date 2023 12 22) eq_refl eq_refl eq_refl).
Defined.

Lemma core_errors_are_logged_witness :
  exists cause reqs,
    "Could not retrieve images from NASA. Error: 503 Server Error: Service Unavailable for url: https://gibs.earthdata.nasa.gov/"
      = "Could not retrieve images from NASA. Error: " +:+ cause /\
    snd (get_nasa_similarity_for_location (E := env net_week_unavailable)
           lat0 lng0 (JStr "2023-08-15") 0.75%float [])
      = reqs ++
        [EvLog ERROR ("Failed to fetch initial images from NASA GIBS: " +:+ cause)].
Proof.
  destruct (core_errors_are_logged (E := env net_week_unavailable)
              lat0 lng0 (JStr "2023-08-15") 0.75%float []
              "Could not retrieve images from NASA. Error: 503 Server Error: Service Unavailable for url: https://gibs.earthdata.nasa.gov/"
              (snd (get_nasa_similarity_for_location (E := env net_week_unavailable)
                      lat0 lng0 (JStr "2023-08-15") 0.75%float [])))
    as [[H _] | (cause & reqs & Hm & Hev & _)].
  - vm_compute. reflexivity.
  - discriminate.
  - exists cause, reqs. split; [exact Hm | exact Hev].
Defined.

Lemma significant_answer :
  calculate_similarity_api (E := env net_fallback_up) (body "2023-08-15") []
  = (Val (JObj (match fst (calculate_similarity_api (E := env net_fallback_up)
                             (body "2023-08-15") []) with
                | Val (JObj b, _) => b
                | _ => ∅
                end), 200),
     [] ++ snd (calculate_similarity_api (E := env net_fallback_up)
                  (body "2023-08-15") [])).
Proof. vm_compute. reflexivity. Qed.

Lemma significant_change_needs_the_fallback_witness :
  length (requests_made
            (snd (calculate_similarity_api (E := env net_fallback_up)
                    (body "2023-08-15") []))) = 3%nat.
Proof.
  apply (significant_change_needs_the_fallback (E := env net_fallback_up)
           (body "2023-08-15") [] _ _ significant_answer).
  vm_compute. reflexivity.
Defined.

Lemma nan_threshold_disables_fallback_witness :
  exists evs,
    snd (get_nasa_similarity_for_location (E := env net_fallback_up)
           lat0 lng0 (JStr "2023-08-15") nan []) = [] ++ evs /\
    (length (requests_made evs) <= 2)%nat.
Proof.
  destruct (nan_threshold_disables_fallback (E := env net_fallback_up)
              lat0 lng0 (JStr "2023-08-15") nan [] eq_refl) as (evs & Htr & Hlen & _).
  exists evs. split; [exact Htr | exact Hlen].
Defined.



End MoreWitnesses.
